(** * gpltoact: the ACT / GPL palette codec of [GUI.py] and [main.py]

    A shallow embedding of the four codec functions
    ([parse_adobe_act], [return_gimp_palette], [parse_gpl_file],
    [create_act_file]) together with the pieces of the Python runtime they
    call ([struct.pack], [struct.unpack], binary file reads, text-mode line
    iteration, [str.strip], [str.isdigit], [re.split], [int], [str.format]).

    Conventions.
    - A Python [int] is a [Z]; a colour is a triple of them.
    - A binary file is the [list byte] of its contents; a file opened for
      reading is that list with a position.
    - A Python [str] is a [string]; the character [c] stands for the code
      point [nat_of_ascii c], so the model covers text whose code points are
      below U+0100.  On that range the character classes below are exactly
      CPython's.  The text handed to [parse_gpl_file] is the decoded content
      of the file.
    - A call that may raise returns a [result]. *)

From Stdlib Require Import ZArith List Bool Lia.
From Stdlib Require Import Strings.Ascii Strings.String Strings.Byte.
From Stdlib Require Import Numbers.DecimalString.
Import ListNotations.

Local Open Scope Z_scope.

(* ================================================================== *)
(** ** Exceptions *)

Inductive exn : Type :=
| struct_error
| ValueError
| IndexError.

Inductive result (A : Type) : Type :=
| Ok (a : A)
| Raise (e : exn).

Arguments Ok {A} a.
Arguments Raise {A} e.

Definition bind {A B : Type} (m : result A) (k : A -> result B) : result B :=
  match m with
  | Ok a => k a
  | Raise e => Raise e
  end.

Notation "x <- m ;; k" := (bind m (fun x => k))
  (at level 61, m at next level, right associativity).

(** A list comprehension [[f(x) for x in xs]] whose body may raise: the
    elements are evaluated left to right and the first exception ends it. *)
Fixpoint comprehension {A B : Type} (f : A -> result B) (xs : list A)
  : result (list B) :=
  match xs with
  | [] => Ok []
  | x :: xs' => y <- f x ;; ys <- comprehension f xs' ;; Ok (y :: ys)
  end.

(** A colour as the code holds it: the tuple [(r, g, b)]. *)
Definition color : Type := (Z * Z * Z)%type.

Definition channels (c : color) : list Z :=
  let '(r, g, b) := c in [r; g; b].

Definition in_byte_range (x : Z) : Prop := 0 <= x <= 255.

Definition color_in_range (c : color) : Prop :=
  let '(r, g, b) := c in
  in_byte_range r /\ in_byte_range g /\ in_byte_range b.

(** Python's [len]. *)
Definition len {A : Type} (l : list A) : Z := Z.of_nat (List.length l).

(* ================================================================== *)
(** ** The [struct] module *)

Module Struct.

Definition Z_of_byte (b : byte) : Z := Z.of_N (Byte.to_N b).

(** One [B] field: an unsigned byte, refused outside [0, 255]. *)
Definition pack_B (x : Z) : result byte :=
  if (0 <=? x) && (x <=? 255) then
    match Byte.of_N (Z.to_N x) with
    | Some b => Ok b
    | None => Raise struct_error
    end
  else Raise struct_error.

(** [pack('3B', r, g, b)] *)
Definition pack_3B (r g b : Z) : result (list byte) :=
  br <- pack_B r ;; bg <- pack_B g ;; bb <- pack_B b ;; Ok [br; bg; bb].

(** [pack('>H', n)]: big-endian unsigned 16-bit, refused outside
    [0, 65535]. *)
Definition pack_H_be (n : Z) : result (list byte) :=
  if (0 <=? n) && (n <=? 65535) then
    hi <- pack_B (n / 256) ;; lo <- pack_B (n mod 256) ;; Ok [hi; lo]
  else Raise struct_error.

(** [unpack('3B', buf)]: the buffer must hold exactly 3 bytes. *)
Definition unpack_3B (buf : list byte) : result color :=
  match buf with
  | [r; g; b] => Ok (Z_of_byte r, Z_of_byte g, Z_of_byte b)
  | _ => Raise struct_error
  end.

(** [unpack('>H', buf)[0]]: the buffer must hold exactly 2 bytes. *)
Definition unpack_H_be (buf : list byte) : result Z :=
  match buf with
  | [hi; lo] => Ok (256 * Z_of_byte hi + Z_of_byte lo)
  | _ => Raise struct_error
  end.

End Struct.

(* ================================================================== *)
(** ** Binary files *)

Module BinFile.

(** A file open for reading: its contents and the current position. *)
Record reader : Type := { contents : list byte; pos : nat }.

Definition open (bs : list byte) : reader := {| contents := bs; pos := 0 |}.

(** [file.seek(offset, 0)] *)
Definition seek (offset : nat) (f : reader) : reader :=
  {| contents := contents f; pos := offset |}.

(** [file.read(n)]: at most [n] bytes from the position, which advances by
    the number of bytes actually read. *)
Definition read (n : nat) (f : reader) : list byte * reader :=
  let chunk := firstn n (skipn (pos f) (contents f)) in
  (chunk, {| contents := contents f; pos := (pos f + List.length chunk)%nat |}).

(** [os.path.getsize] *)
Definition getsize (bs : list byte) : nat := List.length bs.

End BinFile.

(* ================================================================== *)
(** ** Python [str] *)

Module PyStr.

Local Open Scope string_scope.

Definition LF : ascii := "010"%char.
Definition CR : ascii := "013"%char.
Definition TAB : ascii := "009"%char.

Definition code (c : ascii) : N := N_of_ascii c.

(** [str.isspace] on one character, which is also what [\s] of a [str]
    pattern matches: U+0009..U+000D, U+001C..U+0020, U+0085, U+00A0. *)
Definition isspace_char (c : ascii) : bool :=
  let n := code c in
  (((9 <=? n) && (n <=? 13)) || ((28 <=? n) && (n <=? 32))
   || (n =? 133) || (n =? 160))%N.

(** The characters [int] reads as decimal digits: U+0030..U+0039. *)
Definition isdecimal_char (c : ascii) : bool :=
  let n := code c in ((48 <=? n) && (n <=? 57))%N.

(** [str.isdigit] on one character: the decimal digits and the
    superscripts U+00B2, U+00B3, U+00B9. *)
Definition isdigit_char (c : ascii) : bool :=
  let n := code c in
  (isdecimal_char c || (n =? 178) || (n =? 179) || (n =? 185))%N.

Fixpoint forallb (p : ascii -> bool) (s : string) : bool :=
  match s with
  | EmptyString => true
  | String c s' => p c && forallb p s'
  end.

(** The truth value of a [str]: non-empty. *)
Definition truthy (s : string) : bool :=
  match s with
  | EmptyString => false
  | String _ _ => true
  end.

Fixpoint lstrip (s : string) : string :=
  match s with
  | EmptyString => EmptyString
  | String c s' => if isspace_char c then lstrip s' else s
  end.

Fixpoint rstrip (s : string) : string :=
  match s with
  | EmptyString => EmptyString
  | String c s' =>
      match rstrip s' with
      | EmptyString => if isspace_char c then EmptyString else String c EmptyString
      | t => String c t
      end
  end.

(** [s.strip()] *)
Definition strip (s : string) : string := rstrip (lstrip s).

(** [s.startswith(p)] *)
Definition startswith (s p : string) : bool := prefix p s.

(** [s.isdigit()]: at least one character, and all of them digits. *)
Definition isdigit (s : string) : bool := truthy s && forallb isdigit_char s.

(** [re.split(r'\s+', s)]: the pieces of [s] between maximal runs of
    whitespace, an empty piece where [s] starts or ends with one.
    [in_run] says that the previous character was whitespace; the head of
    the result is the piece the characters read so far belong to. *)
Fixpoint re_split_ws_from (in_run : bool) (s : string) : list string :=
  match s with
  | EmptyString => [EmptyString]
  | String c s' =>
      if isspace_char c then
        if in_run then re_split_ws_from true s'
        else EmptyString :: re_split_ws_from true s'
      else
        match re_split_ws_from false s' with
        | t :: ts => String c t :: ts
        | [] => [String c EmptyString]
        end
  end.

Definition re_split_ws (s : string) : list string := re_split_ws_from false s.

(** CPython's default limit on the digits of a string converted to an
    [int] ([sys.int_info.default_max_str_digits]). *)
Definition int_max_str_digits : nat := 4300.

Fixpoint decimal_value (acc : Z) (s : string) : Z :=
  match s with
  | EmptyString => acc
  | String c s' => decimal_value (10 * acc + (Z.of_N (code c) - 48)) s'
  end.

(** [int(x)] for a token [x] that passed [x.isdigit()], the only strings
    the reader converts: the value of the decimal digits, [ValueError]
    when a character is a digit that is not decimal (a superscript) or
    when there are more digits than the limit. *)
Definition int (x : string) : result Z :=
  if truthy x && forallb isdecimal_char x
     && (String.length x <=? int_max_str_digits)%nat
  then Ok (decimal_value 0 x)
  else Raise ValueError.

(** [str(n)], which is also how [format] renders an [int] field. *)
Definition str (n : Z) : string := NilZero.string_of_int (Z.to_int n).

(** [sep.join(parts)] *)
Definition join (sep : string) (parts : list string) : string :=
  String.concat sep parts.

End PyStr.

(* ================================================================== *)
(** ** Text files: [open(filename, 'r')] and [for line in f] *)

Module TextFile.

Import PyStr.

(** Universal newlines, the default of a file opened in text mode: a CR,
    a LF and a CR LF pair each read as one LF.  [pending_cr] says that
    the previous character was a CR (already read as a LF). *)
Fixpoint universal_newlines (pending_cr : bool) (s : string) : string :=
  match s with
  | EmptyString => EmptyString
  | String c s' =>
      if Ascii.eqb c CR then String LF (universal_newlines true s')
      else if Ascii.eqb c LF then
        if pending_cr then universal_newlines false s'
        else String LF (universal_newlines false s')
      else String c (universal_newlines false s')
  end.

(** The lines of a text, each with its ending LF; a last line without one
    is a line too. *)
Fixpoint split_lines (s : string) : list string :=
  match s with
  | EmptyString => []
  | String c s' =>
      if Ascii.eqb c LF then String c EmptyString :: split_lines s'
      else
        match split_lines s' with
        | [] => [String c EmptyString]
        | l :: ls => String c l :: ls
        end
  end.

(** What [for line in f] yields for a file whose decoded content is
    [text]. *)
Definition lines_of (text : string) : list string :=
  split_lines (universal_newlines false text).

End TextFile.

(* ================================================================== *)
(** ** [GUI.py]: the core functions *)

Module GUI.

Import Struct BinFile PyStr TextFile.

(** [[struct.unpack('3B', file.read(3)) for i in range(nbcolors)]] *)
Fixpoint read_colors (nbcolors : nat) (file : reader) : result (list color) :=
  match nbcolors with
  | O => Ok []
  | S n =>
      let (buf, file') := read 3 file in
      c <- unpack_3B buf ;;
      cs <- read_colors n file' ;;
      Ok (c :: cs)
  end.

Definition parse_adobe_act (bs : list byte) : result (list color) :=
  let filesize := getsize bs in
  let file := open bs in
  if (filesize =? 772)%nat then
    let file := seek 768 file in
    let (buf, file) := read 2 file in
    nbcolors <- unpack_H_be buf ;;
    let file := seek 0 file in
    read_colors (Z.to_nat nbcolors) file
  else
    let nbcolors := (filesize / 3)%nat in
    read_colors nbcolors file.

(** The format ['{0} {1} {2}\tUntitled'] applied to the channels of [c]. *)
Definition color_line (c : color) : string :=
  let '(r, g, b) := c in
  (str r ++ " " ++ str g ++ " " ++ str b ++ String TAB "Untitled")%string.

Definition return_gimp_palette
  (colors : list color) (name : string) (columns : Z) : string :=
  ("GIMP Palette" ++ String LF "Name: " ++ name
   ++ String LF "Columns: " ++ str columns
   ++ String LF (String "#" (String LF EmptyString))
   ++ join (String LF EmptyString) (map color_line colors)
   ++ String LF EmptyString)%string.

(** [max(0, min(255, x))] *)
Definition clamp (x : Z) : Z := Z.max 0 (Z.min 255 x).

(** The body of the [try] for one line: the new value of [colors]. *)
Definition try_line (parts : list string) (colors : list color)
  : result (list color) :=
  all <- comprehension int (filter isdigit parts) ;;
  let nums := firstn 3 all in
  if len nums >=? 3 then
    match map clamp (firstn 3 nums) with
    | [r; g; b] => Ok (colors ++ [(r, g, b)])
    | _ => Raise ValueError
    end
  else Ok colors.

(** One turn of [for line in f]. *)
Definition gpl_line (colors : list color) (line : string)
  : result (list color) :=
  let line := strip line in
  if negb (truthy line) || startswith line "#" then Ok colors
  else
    let parts := re_split_ws (strip line) in
    match try_line parts colors with
    | Ok colors' => Ok colors'
    | Raise ValueError | Raise IndexError => Ok colors
    | Raise e => Raise e
    end.

Fixpoint gpl_lines (lines : list string) (colors : list color)
  : result (list color) :=
  match lines with
  | [] => Ok colors
  | line :: rest => colors' <- gpl_line colors line ;; gpl_lines rest colors'
  end.

(** [text] is the decoded content of the file [filename]. *)
Definition parse_gpl_file (text : string) : result (list color) :=
  gpl_lines (lines_of text) [].

(** [for r, g, b in colors[:256]: f.write(pack('3B', r, g, b))], the file
    being the bytes written so far. *)
Fixpoint write_colors (colors : list color) (f : list byte)
  : result (list byte) :=
  match colors with
  | [] => Ok f
  | (r, g, b) :: rest =>
      bs <- pack_3B r g b ;;
      write_colors rest (f ++ bs)
  end.

(** [for _ in range(n): f.write(pack('3B', 0, 0, 0))] *)
Fixpoint write_padding (n : nat) (f : list byte) : result (list byte) :=
  match n with
  | O => Ok f
  | S n' =>
      bs <- pack_3B 0 0 0 ;;
      write_padding n' (f ++ bs)
  end.

(** The bytes of the output file when no call raises; when one does, the
    model keeps the exception and not the partly written file. *)
Definition create_act_file (colors : list color) : result (list byte) :=
  f <- write_colors (firstn 256 colors) [] ;;
  f <- write_padding (Z.to_nat (256 - len colors)) f ;;
  if (len colors >? 0) && (len colors <? 256) then
    bs <- pack_H_be (len colors) ;;
    Ok (f ++ bs)
  else Ok f.

End GUI.

(* ================================================================== *)
(** ** [main.py]: the command-line converter's copies *)

Module Main.

Import Struct PyStr TextFile.

Definition clamp (x : Z) : Z := Z.max 0 (Z.min 255 x).

Definition try_line (parts : list string) (colors : list color)
  : result (list color) :=
  all <- comprehension int (filter isdigit parts) ;;
  let nums := firstn 3 all in
  if len nums >=? 3 then
    match map clamp (firstn 3 nums) with
    | [r; g; b] => Ok (colors ++ [(r, g, b)])
    | _ => Raise ValueError
    end
  else Ok colors.

Definition gpl_line (colors : list color) (line : string)
  : result (list color) :=
  let line := strip line in
  if negb (truthy line) || startswith line "#" then Ok colors
  else
    let parts := re_split_ws (strip line) in
    match try_line parts colors with
    | Ok colors' => Ok colors'
    | Raise ValueError | Raise IndexError => Ok colors
    | Raise e => Raise e
    end.

Fixpoint gpl_lines (lines : list string) (colors : list color)
  : result (list color) :=
  match lines with
  | [] => Ok colors
  | line :: rest => colors' <- gpl_line colors line ;; gpl_lines rest colors'
  end.

Definition parse_gpl_file (text : string) : result (list color) :=
  gpl_lines (lines_of text) [].

Fixpoint write_colors (colors : list color) (f : list byte)
  : result (list byte) :=
  match colors with
  | [] => Ok f
  | (r, g, b) :: rest =>
      bs <- pack_3B r g b ;;
      write_colors rest (f ++ bs)
  end.

Fixpoint write_padding (n : nat) (f : list byte) : result (list byte) :=
  match n with
  | O => Ok f
  | S n' =>
      bs <- pack_3B 0 0 0 ;;
      write_padding n' (f ++ bs)
  end.

Definition create_act_file (colors : list color) : result (list byte) :=
  f <- write_colors (firstn 256 colors) [] ;;
  f <- write_padding (Z.to_nat (256 - len colors)) f ;;
  if (len colors >? 0) && (len colors <? 256) then
    bs <- pack_H_be (len colors) ;;
    Ok (f ++ bs)
  else Ok f.

End Main.

(* ================================================================== *)
(** ** What the ACT format says, in the words of the specification *)

Module ActSpec.

Import Struct.

(** The consecutive 3-byte (R, G, B) groups of a byte sequence, from
    offset 0; one or two trailing bytes form no group. *)
Fixpoint triples (bs : list byte) : list color :=
  match bs with
  | r :: g :: b :: rest => (Z_of_byte r, Z_of_byte g, Z_of_byte b) :: triples rest
  | _ => []
  end.

(** The big-endian 16-bit integer at byte offset 768. *)
Definition be16_at_768 (bs : list byte) : Z :=
  256 * Z_of_byte (nth 768 bs x00) + Z_of_byte (nth 769 bs x00).

(** The colour count of a file: the count field when the size is exactly
    772 bytes, the size divided by 3 otherwise. *)
Definition color_count (bs : list byte) : nat :=
  if (List.length bs =? 772)%nat then Z.to_nat (be16_at_768 bs)
  else (List.length bs / 3)%nat.

Definition black : color := (0, 0, 0).

(** The bytes of a written file, as integers: the retained colours, the
    black padding up to 256 slots, and the count field when there is
    one. *)
Definition act_layout (colors : list color) : list Z :=
  let n := List.length colors in
  flat_map channels (firstn 256 colors)
  ++ flat_map channels (repeat black (256 - Nat.min n 256))
  ++ (if (1 <=? n)%nat && (n <=? 255)%nat
      then [Z.of_nat n / 256; Z.of_nat n mod 256] else []).

End ActSpec.

(* ================================================================== *)
(** ** What the GPL format says, in the words of the specification *)

Module GplSpec.

Import PyStr.
Local Open Scope string_scope.

Definition newline : string := String LF EmptyString.

(** The four header lines, without the LF that ends the last of them. *)
Definition gpl_header (name : string) (columns : Z) : string :=
  "GIMP Palette" ++ String LF "Name: " ++ name
  ++ String LF "Columns: " ++ str columns ++ String LF "#".

(** One colour line: the three decimal values separated by spaces, a
    tab, the label, and the LF that ends the line. *)
Definition color_row (c : color) : string :=
  let '(r, g, b) := c in
  str r ++ " " ++ str g ++ " " ++ str b ++ String TAB "Untitled" ++ newline.

Fixpoint color_rows (colors : list color) : string :=
  match colors with
  | [] => EmptyString
  | c :: rest => color_row c ++ color_rows rest
  end.

(** The digit-only tokens of a line. *)
Definition digit_tokens (line : string) : list string :=
  filter isdigit (re_split_ws (strip line)).

(** [c] is what the first three digit-only tokens of [line] say, each
    value clamped into [0, 255]. *)
Definition from_data_line (line : string) (c : color) : Prop :=
  exists a b d rest x y z,
    digit_tokens line = a :: b :: d :: rest
    /\ int a = Ok x /\ int b = Ok y /\ int d = Ok z
    /\ c = (GUI.clamp x, GUI.clamp y, GUI.clamp z).

(** The text of a colour line, from its three tokens. *)
Definition row_text (R G B : string) : string :=
  R ++ " " ++ G ++ " " ++ B ++ String TAB "Untitled".

Definition nonspace (c : ascii) : bool := negb (isspace_char c).

Definition no_newline (c : ascii) : bool :=
  negb (Ascii.eqb c CR) && negb (Ascii.eqb c LF).

(** [tok] is a token of the reader that reads as the integer [v]. *)
Definition token_of (tok : string) (v : Z) : Prop :=
  tok <> EmptyString
  /\ forallb nonspace tok = true
  /\ isdigit tok = true
  /\ int tok = Ok v.

(** The decimal rendering of [v] is such a token. *)
Definition token_check (v : Z) : bool :=
  let tok := str v in
  truthy tok && forallb nonspace tok && isdigit tok
  && match int tok with
     | Ok v' => (v' =? v)%Z
     | Raise _ => false
     end.

(** What the reader makes of the header lines of a written text. *)
Definition header_colors (name : string) (columns : Z) : result (list color) :=
  GUI.gpl_lines (TextFile.lines_of (gpl_header name columns ++ newline)) [].

(** No character of [s] is a digit. *)
Definition digit_free (s : string) : bool :=
  forallb (fun c => negb (isdigit_char c)) s.

(** Reading a GPL text and writing the result again. *)
Definition gpl_rewrite (text name : string) (columns : Z) : result string :=
  colors <- GUI.parse_gpl_file text ;;
  Ok (GUI.return_gimp_palette colors name columns).

End GplSpec.

(* ================================================================== *)
(** ** Sample inputs *)

Module Samples.

Import PyStr GplSpec.
Local Open Scope string_scope.

(** A 772-byte file whose count field says 258 colours. *)
Definition act_count_258 : list byte :=
  (repeat x00 768 ++ [x01; x02; x00; x00])%list.

(** 300 colours, all different. *)
Definition palette_300 : list color :=
  map (fun i => (Z.of_nat i mod 256, Z.of_nat i / 256, 7)) (seq 0 300).

Definition color_in_rangeb (c : color) : bool :=
  let '(r, g, b) := c in
  ((0 <=? r) && (r <=? 255) && (0 <=? g) && (g <=? 255)
   && (0 <=? b) && (b <=? 255))%Z.

(** The data line with a signed token, and an unsigned variant. *)
Definition line_300_minus10_128 : string := "300 -10 128".
Definition line_300_0_128 : string := "300 0 128".

(** A GPL file with header lines, a colour line with its label, a line
    that is no number, and a colour line without a label. *)
Definition tolerance_text : string :=
  "GIMP Palette" ++ String LF "Name: Test" ++ String LF "Columns: 2"
  ++ String LF "#" ++ String LF "10 20 30" ++ String TAB "Untitled"
  ++ String LF "notanumber" ++ String LF "40 50 60" ++ newline.

(** A palette name that reads as a colour line. *)
Definition numeric_name : string := "1 2 3".

Definition two_colors : list color := [(0, 0, 0); (255, 128, 7)].

End Samples.

(* ================================================================== *)
(** ** Further notions for the codec *)

Module CodecSpec.

Import PyStr.
Local Open Scope string_scope.

(** The colours one line contributes: what one turn of the loop appends
    to an empty list. *)
Definition line_colors (line : string) : list color :=
  match GUI.gpl_line [] line with
  | Ok cs => cs
  | Raise _ => []
  end.

(** A text with every LF written as CR LF, as a file written in text mode
    on Windows holds it. *)
Fixpoint to_crlf (s : string) : string :=
  match s with
  | EmptyString => EmptyString
  | String c s' =>
      if Ascii.eqb c LF then String CR (String LF (to_crlf s'))
      else String c (to_crlf s')
  end.

Definition no_cr (c : ascii) : bool := negb (Ascii.eqb c CR).

(** [text'] is what a text read of a file gives when the file holds the
    characters of [written] as UTF-8 holds them: [written] itself, or,
    where text files are written with CR LF line ends, [written] with
    those line ends.  (A file written in another encoding need not read
    back at all.) *)
Definition reads_back (written text' : string) : Prop :=
  text' = written
  \/ (forallb no_cr written = true /\ text' = to_crlf written).

(** A text with an indented comment that holds numbers, an empty and a
    blank line, a line with five numbers, a line with two, a header line,
    and a last data line with a label and a CR LF end. *)
Definition comments_text : string :=
  "  # 255 0 0 pure red"
  ++ String LF (String LF ("   " ++ String TAB (String LF ("1 2 3 4 5"
  ++ String LF ("7 8" ++ String LF ("Columns: 16"
  ++ String LF (" 9 10 11 trailing"
  ++ String CR (String LF EmptyString)))))))).

(** A full 768-byte colour table. *)
Definition table_768 : list byte :=
  flat_map (fun i => match Byte.of_nat i with
                     | Some b => [b; x10; xff]
                     | None => []
                     end) (seq 0 256).

(** 256 colours, all different. *)
Definition palette_256 : list color :=
  map (fun i => (Z.of_nat i, 16, 255)) (seq 0 256).

End CodecSpec.

(* ================================================================== *)
(** ** What lies around the codec: files, dialogs, the platform *)

Module Env.

(** What reaches an [except Exception] handler: an exception of the
    codec, or one the environment raises ([OSError] from [open] or
    [os.path.getsize], a decoding or an encoding error). *)
Inductive raised : Type :=
| Codec (e : exn)
| Environment.

(** The file system and the platform, as the programs see them during one
    run.
    - [path_exists]: [os.path.exists].
    - [text_of p]: the decoded content of [p] read as UTF-8 text; [None]
      when [open] or the decoding raises.
    - [bytes_of p]: the content of [p] read as a binary file; [None] when
      [os.path.getsize] or [open] raises.
    - [can_write p]: opening [p] for writing and writing to it succeed.
    - [basename]: [os.path.basename]. *)
Record world : Type := {
  path_exists : string -> bool;
  text_of : string -> option string;
  bytes_of : string -> option (list byte);
  can_write : string -> bool;
  basename : string -> string
}.

(** What a run did to the file system.  [WriteFailed p]: opening [p] or
    writing to it raised; the file may have been created or cut short. *)
Inductive effect : Type :=
| Untouched
| WroteBytes (path : string) (content : list byte)
| WroteText (path : string) (content : string)
| WriteFailed (path : string).

(** The truth value of a list: non-empty. *)
Definition nonempty {A : Type} (l : list A) : bool :=
  match l with
  | [] => false
  | _ :: _ => true
  end.

End Env.

(* ================================================================== *)
(** ** [main.py]: [main] *)

Module MainCli.

Import PyStr Env.

(** The lines [main] prints, with the values formatted into them. *)
Inductive message : Type :=
| Usage
| NotFound (input_file : string)
| NoColors
| Converted (n : Z) (output_file : string)
| ErrorOf (e : raised).

(** One run of the script: what it printed, its exit status, and what it
    did to the output file. *)
Record run : Type := {
  printed : list message;
  status : Z;
  done : effect
}.

(** [print(m)] on a standard output that accepts the line [m] exactly
    when [print_ok m]: the line is printed, or [print] raises (the text
    cannot be encoded, the stream is closed) and nothing is printed. *)
Definition say (print_ok : message -> bool) (m : message) : list message :=
  if print_ok m then [m] else [].

(** The [except Exception] handler: print the error, [sys.exit(1)].  When
    that [print] raises, the exception is not caught and the script ends
    with status 1 all the same. *)
Definition handler (print_ok : message -> bool) (e : raised) (eff : effect)
  : run :=
  {| printed := say print_ok (ErrorOf e); status := 1; done := eff |}.

(** [argv] is [sys.argv].  A run that reaches the end of [main] ends the
    script with status 0; [sys.exit(1)] inside the [try] raises
    [SystemExit], which [except Exception] does not catch; a [print] that
    raises outside the [try] ends the script with status 1, one inside
    the [try] goes to the handler. *)
Definition main (w : world) (print_ok : message -> bool) (argv : list string)
  : run :=
  if negb (len argv =? 3) then
    {| printed := say print_ok Usage; status := 1; done := Untouched |}
  else
    let input_file := nth 1 argv EmptyString in
    let output_file := nth 2 argv EmptyString in
    if negb (path_exists w input_file) then
      {| printed := say print_ok (NotFound input_file); status := 1;
         done := Untouched |}
    else
      match text_of w input_file with
      | None => handler print_ok Environment Untouched
      | Some text =>
          match Main.parse_gpl_file text with
          | Raise e => handler print_ok (Codec e) Untouched
          | Ok colors =>
              if negb (nonempty colors) then
                if print_ok NoColors then
                  {| printed := [NoColors]; status := 1; done := Untouched |}
                else handler print_ok Environment Untouched
              else if negb (can_write w output_file) then
                handler print_ok Environment (WriteFailed output_file)
              else
                match Main.create_act_file colors with
                | Raise e =>
                    handler print_ok (Codec e) (WriteFailed output_file)
                | Ok bs =>
                    if print_ok (Converted (len colors) output_file) then
                      {| printed := [Converted (len colors) output_file];
                         status := 0;
                         done := WroteBytes output_file bs |}
                    else
                      handler print_ok Environment
                        (WroteBytes output_file bs)
                end
          end
      end.


End MainCli.

(* ================================================================== *)
(** ** [GUI.py]: [PaletteConverterApp] *)

Module App.

Import PyStr Env.

Inductive button_state : Type := normal | disabled.

(** The two path variables and the two convert buttons. *)
Record widgets : Type := {
  act_path_var : string;
  gpl_path_var : string;
  btn_convert_act : button_state;
  btn_convert_gpl : button_state
}.

(** The widgets as [_build_act_to_gpl_tab] and [_build_gpl_to_act_tab]
    create them: empty variables, buttons disabled. *)
Definition built : widgets :=
  {| act_path_var := EmptyString; gpl_path_var := EmptyString;
     btn_convert_act := disabled; btn_convert_gpl := disabled |}.

Definition _validate_act_input (a : widgets) : widgets :=
  {| act_path_var := act_path_var a; gpl_path_var := gpl_path_var a;
     btn_convert_act :=
       if truthy (strip (act_path_var a)) then normal else disabled;
     btn_convert_gpl := btn_convert_gpl a |}.

Definition _validate_gpl_input (a : widgets) : widgets :=
  {| act_path_var := act_path_var a; gpl_path_var := gpl_path_var a;
     btn_convert_act := btn_convert_act a;
     btn_convert_gpl :=
       if truthy (strip (gpl_path_var a)) then normal else disabled |}.

Inductive path_var : Type := ActPath | GplPath.

(** A write to a path variable ([var.set], or typing in its entry): the
    variable takes the value and its [trace] runs the validator. *)
Definition set_var (var : path_var) (value : string) (a : widgets) : widgets :=
  match var with
  | ActPath =>
      _validate_act_input
        {| act_path_var := value; gpl_path_var := gpl_path_var a;
           btn_convert_act := btn_convert_act a;
           btn_convert_gpl := btn_convert_gpl a |}
  | GplPath =>
      _validate_gpl_input
        {| act_path_var := act_path_var a; gpl_path_var := value;
           btn_convert_act := btn_convert_act a;
           btn_convert_gpl := btn_convert_gpl a |}
  end.

(** [answer] is what the open-file dialog returned, the empty string when
    it was cancelled; [ftype] only chooses the dialog's file types. *)
Definition _browse_file
  (var : path_var) (ftype : string) (answer : string) (a : widgets) : widgets :=
  if truthy answer then set_var var answer a else a.

(** What the user does to the path entries. *)
Inductive event : Type :=
| Typed (var : path_var) (value : string)
| Browsed (var : path_var) (ftype : string) (answer : string).

Definition step (a : widgets) (ev : event) : widgets :=
  match ev with
  | Typed var value => set_var var value a
  | Browsed var ftype answer => _browse_file var ftype answer a
  end.

(** The widgets after the user's events, in order. *)
Definition after (events : list event) (a : widgets) : widgets :=
  fold_left step events a.

(** A convert button is enabled exactly when its path, stripped, is not
    empty. *)
Definition buttons_follow_paths (a : widgets) : Prop :=
  btn_convert_act a
  = (if truthy (strip (act_path_var a)) then normal else disabled)
  /\ btn_convert_gpl a
     = (if truthy (strip (gpl_path_var a)) then normal else disabled).

(** Whether the guard [if not input_path: return] of a handler lets a
    click on an enabled button through. *)
Definition guard_passes (button : button_state) (input_path : string) : bool :=
  match button with
  | normal => truthy input_path
  | disabled => true
  end.

(** The message box a handler shows. *)
Inductive box : Type :=
| Success (saved_to : string)
| NoValidColors
| FailedToConvert (e : raised).

(** One run of a convert handler: the message box shown, whether the
    save dialog was opened, and what was done to the output file. *)
Record outcome : Type := {
  shown : option box;
  asked_save : bool;
  saved : effect
}.

(** [answer] is what the save dialog returns when it is opened, the empty
    string when it is cancelled.  [write_text_ok p t]: [open(p, 'w')]
    succeeds and so does [f.write(t)], that is, the platform's encoding
    can encode [t].  [WroteText p t] then says that the [str] [t] was
    written to [p]: the file holds [t] in the platform's encoding and
    with the platform's line ends, which a later UTF-8 read need not give
    back (see [reads_back]). *)
Definition _convert_act_to_gpl
  (w : world) (write_text_ok : string -> string -> bool)
  (a : widgets) (answer : string) : outcome :=
  let input_path := act_path_var a in
  if negb (truthy input_path) then
    {| shown := None; asked_save := false; saved := Untouched |}
  else
    match bytes_of w input_path with
    | None =>
        {| shown := Some (FailedToConvert Environment);
           asked_save := false; saved := Untouched |}
    | Some bs =>
        match GUI.parse_adobe_act bs with
        | Raise e =>
            {| shown := Some (FailedToConvert (Codec e));
               asked_save := false; saved := Untouched |}
        | Ok colors =>
            let output_path := answer in
            if truthy output_path then
              let text :=
                GUI.return_gimp_palette colors (basename w output_path) 0 in
              if write_text_ok output_path text then
                {| shown := Some (Success output_path);
                   asked_save := true;
                   saved := WroteText output_path text |}
              else
                {| shown := Some (FailedToConvert Environment);
                   asked_save := true; saved := WriteFailed output_path |}
            else
              {| shown := None; asked_save := true; saved := Untouched |}
        end
    end.

Definition _convert_gpl_to_act (w : world) (a : widgets) (answer : string)
  : outcome :=
  let input_path := gpl_path_var a in
  if negb (truthy input_path) then
    {| shown := None; asked_save := false; saved := Untouched |}
  else
    match text_of w input_path with
    | None =>
        {| shown := Some (FailedToConvert Environment);
           asked_save := false; saved := Untouched |}
    | Some text =>
        match GUI.parse_gpl_file text with
        | Raise e =>
            {| shown := Some (FailedToConvert (Codec e));
               asked_save := false; saved := Untouched |}
        | Ok colors =>
            if negb (nonempty colors) then
              {| shown := Some NoValidColors;
                 asked_save := false; saved := Untouched |}
            else
              let output_path := answer in
              if truthy output_path then
                if negb (can_write w output_path) then
                  {| shown := Some (FailedToConvert Environment);
                     asked_save := true; saved := WriteFailed output_path |}
                else
                  match GUI.create_act_file colors with
                  | Raise e =>
                      {| shown := Some (FailedToConvert (Codec e));
                         asked_save := true;
                         saved := WriteFailed output_path |}
                  | Ok bs =>
                      {| shown := Some (Success output_path);
                         asked_save := true;
                         saved := WroteBytes output_path bs |}
                  end
              else
                {| shown := None; asked_save := true; saved := Untouched |}
        end
    end.

(** A message box that reports an exception of the codec. *)
Definition codec_failure (b : option box) : bool :=
  match b with
  | Some (FailedToConvert (Codec _)) => true
  | _ => false
  end.

End App.

(* ================================================================== *)
(** ** A sample environment *)

Module RunSamples.

Import PyStr Env App Samples CodecSpec.
Local Open Scope string_scope.

(** A file system with the GPL text [in.gpl] and the colour table
    [in.act], where every path can be written. *)
Definition sample_world : world :=
  {| path_exists := fun p => (p =? "in.gpl") || (p =? "in.act");
     text_of := fun p => if p =? "in.gpl" then Some tolerance_text else None;
     bytes_of := fun p => if p =? "in.act" then Some table_768 else None;
     can_write := fun _ => true;
     basename := fun p => p |}.


(** The same file system with a two-byte file [tiny.act], and the text
    [out.gpl] later written from it. *)
Definition tiny_world (written : string) : world :=
  {| path_exists := fun p => (p =? "tiny.act") || (p =? "out.gpl");
     text_of := fun p => if p =? "out.gpl" then Some written else None;
     bytes_of := fun p => if p =? "tiny.act" then Some [x01; x02] else None;
     can_write := fun _ => true;
     basename := fun p => p |}.

Definition tiny_widgets : widgets :=
  {| act_path_var := "tiny.act"; gpl_path_var := "out.gpl";
     btn_convert_act := normal; btn_convert_gpl := normal |}.


Definition stdout_refuses_success : MainCli.message -> bool :=
  fun m => match m with
           | MainCli.Converted _ _ => false
           | _ => true
           end.

(** A platform that can write every text. *)
Definition text_ok : string -> string -> bool := fun _ _ => true.

End RunSamples.

(* ================================================================== *)
(** ** Bytes and [struct] *)

Section StructFacts.

Import Struct.

Lemma Z_of_byte_range (b : byte) : 0 <= Z_of_byte b <= 255.
Proof.
  unfold Z_of_byte. pose proof (Byte.to_N_bounded b). lia.
Qed.

Lemma Z_of_byte_inj (a b : byte) : Z_of_byte a = Z_of_byte b -> a = b.
Proof.
  unfold Z_of_byte. intros H. apply N2Z.inj in H.
  pose proof (Byte.of_to_N a) as Ha. rewrite H, Byte.of_to_N in Ha.
  congruence.
Qed.

Lemma pack_B_ok (x : Z) :
  in_byte_range x -> exists b, pack_B x = Ok b /\ Z_of_byte b = x.
Proof.
  unfold in_byte_range, pack_B. intros Hx.
  replace ((0 <=? x) && (x <=? 255)) with true
    by (symmetry; apply andb_true_iff; split; apply Z.leb_le; lia).
  destruct (Byte.of_N (Z.to_N x)) as [b|] eqn:E.
  - exists b. split; [reflexivity|].
    apply Byte.to_of_N in E. unfold Z_of_byte. rewrite E. lia.
  - apply Byte.of_N_None_iff in E. lia.
Qed.

Lemma pack_3B_ok (r g b : Z) :
  color_in_range (r, g, b) ->
  exists bs, pack_3B r g b = Ok bs /\ map Z_of_byte bs = [r; g; b].
Proof.
  intros (Hr & Hg & Hb). unfold pack_3B.
  destruct (pack_B_ok r Hr) as (br & -> & <-).
  destruct (pack_B_ok g Hg) as (bg & -> & <-).
  destruct (pack_B_ok b Hb) as (bb & -> & <-).
  exists [br; bg; bb]. split; reflexivity.
Qed.

Lemma pack_H_be_ok (n : Z) :
  0 <= n <= 65535 ->
  exists bs, pack_H_be n = Ok bs /\ map Z_of_byte bs = [n / 256; n mod 256].
Proof.
  intros Hn. unfold pack_H_be.
  replace ((0 <=? n) && (n <=? 65535)) with true
    by (symmetry; apply andb_true_iff; split; apply Z.leb_le; lia).
  assert (Hhi : in_byte_range (n / 256)).
  { unfold in_byte_range. split.
    - apply Z.div_pos; lia.
    - apply Z.lt_succ_r. apply Z.div_lt_upper_bound; lia. }
  assert (Hlo : in_byte_range (n mod 256)).
  { unfold in_byte_range. pose proof (Z.mod_pos_bound n 256). lia. }
  destruct (pack_B_ok _ Hhi) as (hi & -> & <-).
  destruct (pack_B_ok _ Hlo) as (lo & -> & <-).
  exists [hi; lo]. split; reflexivity.
Qed.

End StructFacts.

(* ================================================================== *)
(** ** The ACT writer *)

Section ActWriter.

Import Struct ActSpec.

Lemma write_colors_ok (colors : list color) : forall f,
  Forall color_in_range colors ->
  exists bs, GUI.write_colors colors f = Ok (f ++ bs)
             /\ map Z_of_byte bs = flat_map channels colors.
Proof.
  induction colors as [|[[r g] b] rest IH]; intros f Hall.
  - exists []. rewrite app_nil_r. split; reflexivity.
  - inversion Hall as [|c l Hc Hrest]; subst.
    destruct (pack_3B_ok r g b Hc) as (bs & Hpack & Hbs).
    destruct (IH (f ++ bs) Hrest) as (bs' & Hw & Hbs').
    exists (bs ++ bs'). cbn [GUI.write_colors]. rewrite Hpack. cbn [bind].
    rewrite Hw, app_assoc. split; [reflexivity|].
    rewrite map_app, Hbs, Hbs'. reflexivity.
Qed.

Lemma write_padding_ok (n : nat) : forall f,
  exists bs, GUI.write_padding n f = Ok (f ++ bs)
             /\ map Z_of_byte bs = flat_map channels (repeat black n).
Proof.
  induction n as [|n IH]; intros f.
  - exists []. rewrite app_nil_r. split; reflexivity.
  - destruct (IH (f ++ [x00; x00; x00])) as (bs' & Hw & Hbs').
    exists ([x00; x00; x00] ++ bs'). cbn [GUI.write_padding].
    change (pack_3B 0 0 0) with (Ok [x00; x00; x00]). cbn [bind].
    rewrite Hw, app_assoc. split; [reflexivity|].
    rewrite map_app, Hbs'. reflexivity.
Qed.

(** The writer never raises on colours in range, and lays the file out
    as [act_layout] says. *)
Lemma create_act_file_layout (colors : list color) :
  Forall color_in_range colors ->
  exists bs, GUI.create_act_file colors = Ok bs
             /\ map Z_of_byte bs = act_layout colors.
Proof.
  intros Hall. unfold GUI.create_act_file, act_layout, len.
  assert (Hfirst : Forall color_in_range (firstn 256 colors)).
  { rewrite Forall_forall in *. intros c Hc. apply Hall.
    rewrite <- (firstn_skipn 256 colors). apply in_or_app. now left. }
  destruct (write_colors_ok _ [] Hfirst) as (b1 & -> & H1). cbn [bind app].
  destruct (write_padding_ok (Z.to_nat (256 - Z.of_nat (List.length colors))) b1)
    as (b2 & -> & H2). cbn [bind].
  replace (Z.to_nat (256 - Z.of_nat (List.length colors)))
    with (256 - Nat.min (List.length colors) 256)%nat in H2 by lia.
  destruct ((Z.of_nat (List.length colors) >? 0)
            && (Z.of_nat (List.length colors) <? 256)) eqn:E.
  - apply andb_true_iff in E. destruct E as [E1 E2].
    apply Z.gtb_lt in E1. apply Z.ltb_lt in E2.
    destruct (pack_H_be_ok (Z.of_nat (List.length colors))) as (b3 & -> & H3);
      [lia|]. cbn [bind].
    exists ((b1 ++ b2) ++ b3). split; [reflexivity|].
    replace ((1 <=? List.length colors)%nat && (List.length colors <=? 255)%nat)
      with true
      by (symmetry; apply andb_true_iff; split; apply Nat.leb_le; lia).
    rewrite !map_app, H1, H2, H3, <- app_assoc. reflexivity.
  - exists (b1 ++ b2). split; [reflexivity|].
    replace ((1 <=? List.length colors)%nat && (List.length colors <=? 255)%nat)
      with false.
    + rewrite map_app, H1, H2, app_nil_r. reflexivity.
    + symmetry. apply andb_false_iff. apply andb_false_iff in E.
      destruct E as [E|E]; [left; apply Nat.leb_gt | right; apply Nat.leb_gt].
      * destruct (Z.gtb_spec (Z.of_nat (List.length colors)) 0); [discriminate|lia].
      * apply Z.ltb_ge in E. lia.
Qed.

Lemma length_flat_map_channels (cs : list color) :
  List.length (flat_map channels cs) = (3 * List.length cs)%nat.
Proof.
  induction cs as [|[[r g] b] cs IH]; [reflexivity|].
  cbn [flat_map channels app List.length]. rewrite IH. lia.
Qed.

Lemma length_act_layout (colors : list color) :
  List.length (act_layout colors) =
  if (1 <=? List.length colors)%nat && (List.length colors <=? 255)%nat
  then 770%nat else 768%nat.
Proof.
  unfold act_layout.
  rewrite !length_app, !length_flat_map_channels, length_firstn, repeat_length.
  destruct ((1 <=? List.length colors)%nat && (List.length colors <=? 255)%nat);
    cbn [List.length]; lia.
Qed.

End ActWriter.

(* ================================================================== *)
(** ** The ACT reader *)

Section ActReader.

Import Struct BinFile ActSpec.

(** The comprehension reads the groups that remain after the position,
    and raises as soon as a read comes back short. *)
Lemma read_colors_spec (n : nat) : forall file,
  GUI.read_colors n file =
  let rest := skipn (pos file) (contents file) in
  if (3 * n <=? List.length rest)%nat
  then Ok (firstn n (triples rest)) else Raise struct_error.
Proof.
  induction n as [|n IH]; intros [bs p]; cbn [pos contents].
  - reflexivity.
  - cbn [GUI.read_colors]. unfold read. cbn [pos contents].
    pose proof (skipn_skipn 3 p bs) as Hskip.
    destruct (skipn p bs) as [|r [|g [|b rest]]] eqn:E.
    1-3: replace (3 * S n <=? _)%nat with false
           by (symmetry; apply Nat.leb_gt; cbn [List.length]; lia);
         reflexivity.
    + cbn [firstn unpack_3B bind List.length].
      rewrite IH. cbn [pos contents].
      replace (p + 3)%nat with (3 + p)%nat by lia.
      rewrite <- Hskip. cbn [skipn triples firstn].
      destruct (3 * n <=? List.length rest)%nat eqn:L.
      * apply Nat.leb_le in L.
        replace (3 * S n <=? S (S (S (List.length rest))))%nat with true
          by (symmetry; apply Nat.leb_le; lia).
        reflexivity.
      * apply Nat.leb_gt in L.
        replace (3 * S n <=? S (S (S (List.length rest))))%nat with false
          by (symmetry; apply Nat.leb_gt; lia).
        reflexivity.
Qed.

Lemma read_count_field (bs : list byte) :
  List.length bs = 772%nat ->
  firstn 2 (skipn 768 bs) = [nth 768 bs x00; nth 769 bs x00].
Proof.
  intros Hlen.
  pose proof (length_skipn 768 bs) as Hl. rewrite Hlen in Hl.
  pose proof (nth_skipn 768 bs 0 x00) as H0.
  pose proof (nth_skipn 768 bs 1 x00) as H1.
  replace (768 + 0)%nat with 768%nat in H0 by lia.
  replace (768 + 1)%nat with 769%nat in H1 by lia.
  destruct (skipn 768 bs) as [|a [|b rest]].
  - discriminate Hl.
  - discriminate Hl.
  - cbn [nth] in H0, H1. rewrite <- H0, <- H1. reflexivity.
Qed.

(** The reader, in the words of the specification: the colour count, then
    that many groups from offset 0, or [struct.error] when the file is
    too short for them. *)
Lemma parse_adobe_act_spec (bs : list byte) :
  GUI.parse_adobe_act bs =
  if (3 * color_count bs <=? List.length bs)%nat
  then Ok (firstn (color_count bs) (triples bs))
  else Raise struct_error.
Proof.
  unfold GUI.parse_adobe_act, color_count, getsize.
  destruct (List.length bs =? 772)%nat eqn:E.
  - apply Nat.eqb_eq in E.
    unfold read, seek, open. cbn [pos contents].
    rewrite (read_count_field bs E).
    cbn [unpack_H_be bind]. rewrite read_colors_spec. cbn [pos contents].
    rewrite skipn_0. reflexivity.
  - rewrite read_colors_spec. reflexivity.
Qed.

Lemma triples_of_channels (cs : list color) : forall bs rest,
  map Z_of_byte bs = flat_map channels cs ->
  triples (bs ++ rest) = cs ++ triples rest.
Proof.
  induction cs as [|[[r g] b] cs IH]; intros bs rest H.
  - destruct bs; [reflexivity | discriminate H].
  - destruct bs as [|x [|y [|z bs']]]; try discriminate H.
    cbn [flat_map channels app map] in H.
    injection H as Hx Hy Hz Hrest. subst r g b.
    cbn [app triples]. rewrite (IH bs' rest Hrest). reflexivity.
Qed.

End ActReader.

(* ================================================================== *)
(** ** Claims about the ACT codec *)

Section ActClaims.

Import Struct ActSpec Samples.

Lemma main_create_act_file_eq (colors : list color) :
  Main.create_act_file colors = GUI.create_act_file colors.
Proof. reflexivity. Qed.

Lemma length_triples (bs : list byte) :
  List.length (triples bs) = (List.length bs / 3)%nat.
Proof.
  assert (H : forall n l, (List.length l <= n)%nat ->
                          List.length l = (3 * List.length (triples l)
                                           + List.length l mod 3)%nat).
  { induction n as [|n IH]; intros l Hl.
    - destruct l; [reflexivity | cbn in Hl; lia].
    - destruct l as [|a [|b [|c l']]]; try reflexivity.
      cbn [List.length] in Hl. specialize (IH l' ltac:(lia)).
      cbn [triples List.length].
      replace (S (S (S (List.length l')))) with (List.length l' + 1 * 3)%nat by lia.
      rewrite Nat.Div0.mod_add. lia. }
  specialize (H (List.length bs) bs ltac:(lia)).
  pose proof (Nat.mod_upper_bound (List.length bs) 3 ltac:(lia)).
  apply (Nat.div_unique _ 3 _ (List.length bs mod 3)); lia.
Qed.

(** C2 as amended: the reader takes the colour count from the count
    field of a 772-byte file and from size / 3 otherwise; when the file
    holds 3 * count bytes it returns exactly that many colours, the
    consecutive 3-byte groups from offset 0 in order, and otherwise it
    raises [struct.error].  A file whose size is not 772 always holds
    enough bytes. *)
Theorem parse_adobe_act_count_and_groups (bs : list byte) :
  match GUI.parse_adobe_act bs with
  | Ok cs =>
      cs = firstn (color_count bs) (triples bs)
      /\ List.length cs = color_count bs
      /\ (3 * color_count bs <= List.length bs)%nat
  | Raise e =>
      e = struct_error
      /\ List.length bs = 772%nat
      /\ (List.length bs < 3 * color_count bs)%nat
  end.
Proof.
  rewrite parse_adobe_act_spec.
  destruct (3 * color_count bs <=? List.length bs)%nat eqn:E.
  - apply Nat.leb_le in E. split; [reflexivity|]. split; [|exact E].
    rewrite length_firstn, length_triples.
    assert (color_count bs <= List.length bs / 3)%nat
      by (apply Nat.div_le_lower_bound; lia).
    lia.
  - apply Nat.leb_gt in E. split; [reflexivity|]. split; [|exact E].
    unfold color_count in E.
    destruct (List.length bs =? 772)%nat eqn:Hsz; [now apply Nat.eqb_eq|].
    pose proof (Nat.Div0.mul_div_le (List.length bs) 3). lia.
Qed.

(** C2 as stated fails: on a 772-byte file whose count field is 258 the
    reader raises, it returns no list of 258 colours. *)
Lemma parse_adobe_act_count_258_raises :
  List.length act_count_258 = 772%nat
  /\ color_count act_count_258 = 258%nat
  /\ GUI.parse_adobe_act act_count_258 = Raise struct_error
  /\ ~ (exists cs, GUI.parse_adobe_act act_count_258 = Ok cs
                   /\ List.length cs = color_count act_count_258).
Proof.
  assert (H : GUI.parse_adobe_act act_count_258 = Raise struct_error)
    by (vm_compute; reflexivity).
  repeat split; try (vm_compute; reflexivity); try exact H.
  intros (cs & Hcs & _). rewrite H in Hcs. discriminate Hcs.
Qed.

(** C5: when the colour count needs more bytes than the file holds, the
    reader raises [struct.error]; it returns no shorter list.  (Only a
    772-byte file with a count above 257 is in that case.) *)
Theorem parse_adobe_act_short_file_raises (bs : list byte) :
  (List.length bs < 3 * color_count bs)%nat ->
  GUI.parse_adobe_act bs = Raise struct_error
  /\ List.length bs = 772%nat /\ (257 < color_count bs)%nat.
Proof.
  intros H. rewrite parse_adobe_act_spec.
  replace (3 * color_count bs <=? List.length bs)%nat with false
    by (symmetry; apply Nat.leb_gt; exact H).
  split; [reflexivity|].
  unfold color_count in *.
  destruct (List.length bs =? 772)%nat eqn:Hsz.
  - apply Nat.eqb_eq in Hsz. split; [exact Hsz | lia].
  - pose proof (Nat.Div0.mul_div_le (List.length bs) 3). lia.
Qed.

Lemma parse_adobe_act_short_file_raises_witness :
  (List.length act_count_258 < 3 * color_count act_count_258)%nat
  /\ GUI.parse_adobe_act act_count_258 = Raise struct_error.
Proof.
  assert (H : (List.length act_count_258 < 3 * color_count act_count_258)%nat)
    by (vm_compute; lia).
  split; [exact H|].
  exact (proj1 (parse_adobe_act_short_file_raises act_count_258 H)).
Defined.

Lemma colors_in_range_dec (cs : list color) :
  List.forallb color_in_rangeb cs = true -> Forall color_in_range cs.
Proof.
  intros H. apply Forall_forall. intros [[r g] b] Hin.
  rewrite List.forallb_forall in H. specialize (H _ Hin).
  unfold color_in_rangeb in H. unfold color_in_range, in_byte_range.
  repeat (apply andb_true_iff in H; destruct H as [H ?]).
  repeat match goal with
         | X : (_ <=? _) = true |- _ => apply Z.leb_le in X
         end.
  lia.
Qed.

(** C3: on colours in range the writer (in [GUI.py] and in [main.py])
    writes the triples of the first min(len, 256) colours in order, then
    black triples up to 256 slots, then the big-endian 16-bit count
    exactly when 1 <= len <= 255; the file is 770 bytes long in that case
    and 768 bytes long otherwise. *)
Theorem create_act_file_layout_and_size (colors : list color) :
  Forall color_in_range colors ->
  exists bs,
    GUI.create_act_file colors = Ok bs
    /\ Main.create_act_file colors = Ok bs
    /\ map Z_of_byte bs = act_layout colors
    /\ List.length bs =
       if (1 <=? List.length colors)%nat && (List.length colors <=? 255)%nat
       then 770%nat else 768%nat.
Proof.
  intros Hall.
  destruct (create_act_file_layout colors Hall) as (bs & Hw & Hl).
  exists bs. split; [exact Hw|].
  split; [rewrite <- Hw; apply main_create_act_file_eq|].
  split; [exact Hl|].
  rewrite <- (length_map Z_of_byte), Hl. apply length_act_layout.
Qed.

Lemma create_act_file_300_colors :
  exists bs,
    GUI.create_act_file palette_300 = Ok bs
    /\ List.length bs = 768%nat
    /\ map Z_of_byte bs = flat_map channels (firstn 256 palette_300).
Proof.
  destruct (create_act_file_layout_and_size palette_300
              (colors_in_range_dec palette_300 eq_refl))
    as (bs & Hw & _ & Hl & Hn).
  exists bs. split; [exact Hw|]. split; [exact Hn|].
  rewrite Hl. vm_compute. reflexivity.
Defined.

(** C1, where the code diverges: for a palette of 1 to 255 colours in
    range, the file written is 770 bytes long, which the reader does not
    take for a file with a count field (it looks for 772 bytes); it
    reads size / 3 = 256 colours, the palette followed by the black
    padding. *)
Theorem act_round_trip_returns_padding (P : list color) :
  (1 <= List.length P <= 255)%nat ->
  Forall color_in_range P ->
  exists bs,
    GUI.create_act_file P = Ok bs
    /\ List.length bs = 770%nat
    /\ GUI.parse_adobe_act bs
       = Ok (P ++ repeat black (256 - List.length P)).
Proof.
  intros Hn Hall.
  destruct (create_act_file_layout P Hall) as (bs & Hw & Hl).
  assert (Hlen : List.length bs = 770%nat).
  { rewrite <- (length_map Z_of_byte), Hl, length_act_layout.
    replace ((1 <=? List.length P)%nat && (List.length P <=? 255)%nat)
      with true
      by (symmetry; apply andb_true_iff; split; apply Nat.leb_le; lia).
    reflexivity. }
  exists bs. split; [exact Hw|]. split; [exact Hlen|].
  unfold act_layout in Hl.
  rewrite firstn_all2 in Hl by lia.
  replace (256 - Nat.min (List.length P) 256)%nat
    with (256 - List.length P)%nat in Hl by lia.
  rewrite app_assoc, <- flat_map_app in Hl.
  apply map_eq_app in Hl. destruct Hl as (b1 & b2 & -> & H1 & H2).
  rewrite parse_adobe_act_spec.
  assert (Hc : color_count (b1 ++ b2) = 256%nat).
  { unfold color_count. rewrite Hlen. reflexivity. }
  rewrite Hc, Hlen. change (3 * 256 <=? 770)%nat with true. cbv iota.
  rewrite (triples_of_channels _ b1 b2 H1).
  assert (Ht : triples b2 = []).
  { destruct ((1 <=? List.length P)%nat && (List.length P <=? 255)%nat);
      destruct b2 as [|x [|y [|z b2']]]; try discriminate H2; reflexivity. }
  rewrite Ht, app_nil_r. f_equal. apply firstn_all2.
  rewrite length_app, repeat_length. lia.
Qed.

Lemma act_round_trip_one_color :
  GUI.parse_adobe_act
    (repeat x01 3 ++ repeat x00 765 ++ [x00; x01])
  = Ok ((1, 1, 1) :: repeat black 255)
  /\ exists bs,
       GUI.create_act_file [(1, 1, 1)] = Ok bs
       /\ List.length bs = 770%nat
       /\ GUI.parse_adobe_act bs = Ok ([(1, 1, 1)] ++ repeat black (256 - 1)).
Proof.
  split; [vm_compute; reflexivity|].
  apply (act_round_trip_returns_padding [(1, 1, 1)]).
  - cbn [List.length]. lia.
  - apply colors_in_range_dec. reflexivity.
Defined.

End ActClaims.

(* ================================================================== *)
(** ** Strings *)

Section StringFacts.

Local Open Scope string_scope.

Lemma string_app_assoc (a b c : string) : (a ++ b) ++ c = a ++ (b ++ c).
Proof. induction a as [|x a IH]; cbn; [reflexivity | now rewrite IH]. Qed.

Lemma string_app_nil_r (a : string) : a ++ "" = a.
Proof. induction a as [|x a IH]; cbn; [reflexivity | now rewrite IH]. Qed.

Lemma string_length_app (a b : string) :
  String.length (a ++ b) = (String.length a + String.length b)%nat.
Proof. induction a as [|x a IH]; cbn; [reflexivity | now rewrite IH]. Qed.

Lemma forallb_app (p : ascii -> bool) (a b : string) :
  PyStr.forallb p (a ++ b) = PyStr.forallb p a && PyStr.forallb p b.
Proof.
  induction a as [|x a IH]; cbn; [reflexivity|].
  rewrite IH. now rewrite andb_assoc.
Qed.

End StringFacts.

(* ================================================================== *)
(** ** The GPL writer *)

Section GplWriter.

Import PyStr GplSpec Samples.
Local Open Scope string_scope.

Lemma color_row_eq (c : color) : color_row c = GUI.color_line c ++ newline.
Proof.
  destruct c as [[r g] b]. unfold color_row, GUI.color_line.
  rewrite !string_app_assoc. reflexivity.
Qed.

(** Joining the colour lines with LF and adding the final LF ends every
    line with a LF, provided there is a line. *)
Lemma join_color_lines (colors : list color) :
  colors <> [] ->
  join newline (map GUI.color_line colors) ++ newline = color_rows colors.
Proof.
  induction colors as [|c rest IH]; intros Hne; [congruence|].
  destruct rest as [|c' rest'].
  - cbn [map join String.concat color_rows].
    rewrite color_row_eq, string_app_nil_r. reflexivity.
  - specialize (IH ltac:(discriminate)).
    change (join newline (map GUI.color_line (c :: c' :: rest')))
      with (GUI.color_line c ++ newline
            ++ join newline (map GUI.color_line (c' :: rest'))).
    rewrite !string_app_assoc, IH.
    change (color_rows (c :: c' :: rest'))
      with (color_row c ++ color_rows (c' :: rest')).
    rewrite color_row_eq, string_app_assoc. reflexivity.
Qed.

Lemma return_gimp_palette_header (colors : list color) (name : string)
  (columns : Z) :
  GUI.return_gimp_palette colors name columns =
  gpl_header name columns
  ++ String LF (join newline (map GUI.color_line colors) ++ newline).
Proof.
  unfold GUI.return_gimp_palette, gpl_header.
  rewrite !string_app_assoc. reflexivity.
Qed.

(** C7: for a palette that is not empty the writer gives the four header
    lines and then one line per colour in input order, each the three
    decimal values separated by spaces, a tab and [Untitled], every line
    ended by a LF, the last one too; no colour is dropped, merged or
    moved. *)
Theorem return_gimp_palette_text (colors : list color) (name : string)
  (columns : Z) :
  colors <> [] ->
  GUI.return_gimp_palette colors name columns =
  "GIMP Palette" ++ newline
  ++ "Name: " ++ name ++ newline
  ++ "Columns: " ++ str columns ++ newline
  ++ "#" ++ newline
  ++ color_rows colors.
Proof.
  intros Hne. rewrite return_gimp_palette_header, (join_color_lines _ Hne).
  unfold gpl_header. rewrite !string_app_assoc. reflexivity.
Qed.

Lemma return_gimp_palette_text_witness :
  GUI.return_gimp_palette [(3, 2, 1); (3, 2, 1); (0, 255, 7)] "Test" 4 =
  "GIMP Palette" ++ newline
  ++ "Name: Test" ++ newline
  ++ "Columns: 4" ++ newline
  ++ "#" ++ newline
  ++ "3 2 1" ++ String TAB "Untitled" ++ newline
  ++ "3 2 1" ++ String TAB "Untitled" ++ newline
  ++ "0 255 7" ++ String TAB "Untitled" ++ newline.
Proof.
  rewrite (return_gimp_palette_text
             [(3, 2, 1); (3, 2, 1); (0, 255, 7)] "Test" 4 ltac:(discriminate)).
  vm_compute. reflexivity.
Defined.

(** C10: for the empty palette the writer gives the four header lines
    and one more, empty, line: the text ends with [#], LF, LF, and is not
    the header alone. *)
Theorem return_gimp_palette_empty (name : string) (columns : Z) :
  GUI.return_gimp_palette [] name columns
  = gpl_header name columns ++ newline ++ newline
  /\ GUI.return_gimp_palette [] name columns
     = "GIMP Palette" ++ newline
       ++ "Name: " ++ name ++ newline
       ++ "Columns: " ++ str columns ++ newline
       ++ "#" ++ newline ++ newline
  /\ GUI.return_gimp_palette [] name columns
     <> gpl_header name columns ++ newline.
Proof.
  assert (H : GUI.return_gimp_palette [] name columns
              = gpl_header name columns ++ newline ++ newline)
    by (rewrite return_gimp_palette_header; reflexivity).
  split; [exact H|]. split.
  - rewrite H. unfold gpl_header. rewrite !string_app_assoc. reflexivity.
  - rewrite H. intros E. apply (f_equal String.length) in E.
    rewrite !string_length_app in E. cbn in E. lia.
Qed.

End GplWriter.

(* ================================================================== *)
(** ** The GPL reader, line by line *)

Section GplReader.

Import PyStr TextFile GplSpec Samples.

Lemma main_parse_gpl_file_eq (text : string) :
  Main.parse_gpl_file text = GUI.parse_gpl_file text.
Proof. reflexivity. Qed.

Lemma clamp_range (x : Z) : in_byte_range (GUI.clamp x).
Proof. unfold in_byte_range, GUI.clamp. lia. Qed.

Lemma clamp_id (x : Z) : in_byte_range x -> GUI.clamp x = x.
Proof. unfold in_byte_range, GUI.clamp. lia. Qed.

Lemma int_cases (x : string) :
  (exists v, int x = Ok v) \/ int x = Raise ValueError.
Proof.
  unfold int.
  destruct (truthy x && forallb isdecimal_char x
            && (String.length x <=? int_max_str_digits)%nat).
  - left. eexists. reflexivity.
  - right. reflexivity.
Qed.

Lemma comprehension_int_cases (xs : list string) :
  (exists vs, comprehension int xs = Ok vs)
  \/ comprehension int xs = Raise ValueError.
Proof.
  induction xs as [|x xs IH]; cbn [comprehension].
  - left. eexists. reflexivity.
  - destruct (int_cases x) as [(v & ->) | ->]; cbn [bind]; [|now right].
    destruct IH as [(vs & ->) | ->]; cbn [bind]; [|now right].
    left. eexists. reflexivity.
Qed.

(** The body of the [try]: it raises [ValueError], or leaves [colors] as
    it is, or appends the colour of the first three digit-only tokens. *)
Lemma try_line_cases (parts : list string) (colors : list color) :
  GUI.try_line parts colors = Raise ValueError
  \/ GUI.try_line parts colors = Ok colors
  \/ exists a b d rest x y z,
       filter isdigit parts = a :: b :: d :: rest
       /\ int a = Ok x /\ int b = Ok y /\ int d = Ok z
       /\ GUI.try_line parts colors
          = Ok (colors ++ [(GUI.clamp x, GUI.clamp y, GUI.clamp z)]).
Proof.
  unfold GUI.try_line.
  destruct (filter isdigit parts) as [|a [|b [|d rest]]].
  - right. left. reflexivity.
  - cbn [comprehension].
    destruct (int_cases a) as [(x & ->) | ->]; cbn [bind]; [|now left].
    right. left. reflexivity.
  - cbn [comprehension].
    destruct (int_cases a) as [(x & ->) | ->]; cbn [bind]; [|now left].
    destruct (int_cases b) as [(y & ->) | ->]; cbn [bind]; [|now left].
    right. left. reflexivity.
  - cbn [comprehension].
    destruct (int_cases a) as [(x & Ha) | ->]; cbn [bind]; [|now left].
    destruct (int_cases b) as [(y & Hb) | Hb]; rewrite Hb; cbn [bind];
      [|rewrite Ha; now left].
    destruct (int_cases d) as [(z & Hd) | Hd]; rewrite Hd; cbn [bind];
      [|rewrite Ha; now left].
    destruct (comprehension_int_cases rest) as [(vs & Hr) | Hr];
      rewrite Ha, Hr; cbn [bind]; [|now left].
    right. right. exists a, b, d, rest, x, y, z.
    repeat split; try assumption.
Qed.

Lemma rstrip_idem (s : string) : rstrip (rstrip s) = rstrip s.
Proof.
  induction s as [|c s IH]; [reflexivity|].
  cbn [rstrip]. destruct (rstrip s) as [|c' t] eqn:E.
  - destruct (isspace_char c) eqn:Hc; [reflexivity|].
    cbn [rstrip]. now rewrite Hc.
  - cbn [rstrip] in *. rewrite IH. reflexivity.
Qed.

Lemma lstrip_head (s : string) :
  lstrip s = EmptyString
  \/ exists c t, lstrip s = String c t /\ isspace_char c = false.
Proof.
  induction s as [|c s IH]; [now left|].
  cbn [lstrip]. destruct (isspace_char c) eqn:Hc; [exact IH|].
  right. exists c, s. split; [reflexivity | exact Hc].
Qed.

Lemma rstrip_head (c : ascii) (t : string) :
  isspace_char c = false -> exists t', rstrip (String c t) = String c t'.
Proof.
  intros Hc. cbn [rstrip]. destruct (rstrip t).
  - rewrite Hc. eexists. reflexivity.
  - eexists. reflexivity.
Qed.

Lemma strip_idem (s : string) : strip (strip s) = strip s.
Proof.
  unfold strip. destruct (lstrip_head s) as [-> | (c & t & -> & Hc)].
  - reflexivity.
  - destruct (rstrip_head c t Hc) as (t' & E).
    rewrite E. cbn [lstrip]. rewrite Hc, <- E. apply rstrip_idem.
Qed.

(** One turn of the loop never raises: it leaves [colors] as it is, or
    appends the colour of the line. *)
Lemma gpl_line_cases (colors : list color) (line : string) :
  GUI.gpl_line colors line = Ok colors
  \/ exists c, from_data_line line c
               /\ GUI.gpl_line colors line = Ok (colors ++ [c]).
Proof.
  unfold GUI.gpl_line.
  destruct (negb (truthy (strip line)) || startswith (strip line) "#");
    [now left|].
  rewrite strip_idem.
  destruct (try_line_cases (re_split_ws (strip line)) colors)
    as [-> | [-> | (a & b & d & rest & x & y & z & Hf & Ha & Hb & Hd & ->)]].
  - now left.
  - now left.
  - right. eexists. split; [|reflexivity].
    exists a, b, d, rest, x, y, z. repeat split; assumption.
Qed.

Lemma gpl_lines_cases (lines : list string) : forall colors,
  exists out,
    GUI.gpl_lines lines colors = Ok out
    /\ forall c, In c out ->
                 In c colors
                 \/ exists line, In line lines /\ from_data_line line c.
Proof.
  induction lines as [|line rest IH]; intros colors.
  - exists colors. split; [reflexivity|]. intros c Hc. now left.
  - cbn [GUI.gpl_lines].
    destruct (gpl_line_cases colors line) as [-> | (c0 & Hfrom & ->)];
      cbn [bind].
    + destruct (IH colors) as (out & Hout & Hin).
      exists out. split; [exact Hout|].
      intros c Hc. destruct (Hin c Hc) as [?|(l & Hl & Hfl)]; [now left|].
      right. exists l. split; [now right | exact Hfl].
    + destruct (IH (colors ++ [c0])) as (out & Hout & Hin).
      exists out. split; [exact Hout|].
      intros c Hc. destruct (Hin c Hc) as [Hcc|(l & Hl & Hfl)].
      * apply in_app_or in Hcc. destruct Hcc as [?|[<-|[]]]; [now left|].
        right. exists line. split; [now left | exact Hfrom].
      * right. exists l. split; [now right | exact Hfl].
Qed.

Lemma from_data_line_in_range (line : string) (c : color) :
  from_data_line line c -> color_in_range c.
Proof.
  intros (a & b & d & rest & x & y & z & _ & _ & _ & _ & ->).
  repeat split; apply clamp_range.
Qed.

End GplReader.

(* ================================================================== *)
(** ** Claims about what the readers produce *)

Section ReaderClaims.

Import Struct ActSpec PyStr TextFile GplSpec Samples.

Lemma triples_in_range (bs : list byte) : Forall color_in_range (triples bs).
Proof.
  assert (H : forall n l, (List.length l <= n)%nat ->
                          Forall color_in_range (triples l)).
  { induction n as [|n IH]; intros l Hl.
    - destruct l; [constructor | cbn in Hl; lia].
    - destruct l as [|a [|b [|c l']]]; try constructor.
      + repeat split; apply Z_of_byte_range.
      + apply IH. cbn [List.length] in Hl. lia. }
  apply (H (List.length bs)). lia.
Qed.

Lemma In_firstn {A : Type} (n : nat) (l : list A) (x : A) :
  In x (firstn n l) -> In x l.
Proof.
  intros H. rewrite <- (firstn_skipn n l). apply in_or_app. now left.
Qed.

(** C8: the GPL reader (in [GUI.py] and in [main.py]) always returns a
    palette, and every colour of it is the clamped value of the first
    three digit-only tokens of one line of the file, hence a whole
    colour with its three channels in [0, 255]; every colour the ACT
    reader returns is one of the 3-byte groups of the file, its channels
    in [0, 255].  Nothing else is put into a palette. *)
Theorem readers_yield_whole_colors_in_range (text : string) (bs : list byte) :
  (exists cs,
      GUI.parse_gpl_file text = Ok cs
      /\ Main.parse_gpl_file text = Ok cs
      /\ Forall color_in_range cs
      /\ forall c, In c cs ->
                   exists line, In line (lines_of text)
                                /\ from_data_line line c)
  /\ match GUI.parse_adobe_act bs with
     | Ok cs => Forall color_in_range cs
                /\ forall c, In c cs -> In c (triples bs)
     | Raise _ => True
     end.
Proof.
  split.
  - destruct (gpl_lines_cases (lines_of text) []) as (out & Hout & Hin).
    assert (Hfrom : forall c, In c out ->
              exists line, In line (lines_of text) /\ from_data_line line c).
    { intros c Hc. destruct (Hin c Hc) as [[]|H]. exact H. }
    exists out. split; [exact Hout|].
    split; [rewrite main_parse_gpl_file_eq; exact Hout|].
    split; [|exact Hfrom].
    apply Forall_forall. intros c Hc.
    destruct (Hfrom c Hc) as (line & _ & Hl).
    exact (from_data_line_in_range line c Hl).
  - rewrite parse_adobe_act_spec.
    destruct (3 * color_count bs <=? List.length bs)%nat; [|exact I].
    split.
    + apply Forall_forall. intros c Hc. apply In_firstn in Hc.
      pose proof (triples_in_range bs) as H.
      rewrite Forall_forall in H. exact (H c Hc).
    + intros c Hc. exact (In_firstn _ _ _ Hc).
Qed.

(** C4 as amended: the line [300 -10 128] gives no colour, since the
    signed token is not digit-only and two numeric tokens are left; the
    line [300 0 128] gives the single colour (255, 0, 128), each value
    clamped into [0, 255]. *)
Theorem parse_gpl_file_out_of_range_line :
  digit_tokens line_300_minus10_128 = ["300"%string; "128"%string]
  /\ GUI.parse_gpl_file line_300_minus10_128 = Ok []
  /\ Main.parse_gpl_file line_300_minus10_128 = Ok []
  /\ GUI.parse_gpl_file line_300_0_128 = Ok [(255, 0, 128)]
  /\ Main.parse_gpl_file line_300_0_128 = Ok [(255, 0, 128)].
Proof. repeat split; vm_compute; reflexivity. Qed.

(** C4 as stated fails: the line [300 -10 128] does not parse to
    (255, 0, 128). *)
Lemma parse_gpl_file_signed_token_dropped :
  GUI.parse_gpl_file line_300_minus10_128 <> Ok [(255, 0, 128)]
  /\ Main.parse_gpl_file line_300_minus10_128 <> Ok [(255, 0, 128)].
Proof. split; vm_compute; discriminate. Qed.

End ReaderClaims.

(* ================================================================== *)
(** ** Lines of a text *)

Section TextLines.

Import PyStr TextFile GplSpec.
Local Open Scope string_scope.

Lemma universal_newlines_app_nl (a : string) : forall f b,
  universal_newlines f (a ++ String LF b)
  = universal_newlines f (a ++ newline) ++ universal_newlines false b.
Proof.
  induction a as [|c a IH]; intros f b.
  - destruct f; reflexivity.
  - cbn [append universal_newlines].
    destruct (Ascii.eqb c CR); [|destruct (Ascii.eqb c LF); [destruct f|]];
      rewrite IH; reflexivity.
Qed.

Lemma universal_newlines_ends_nl (a : string) : forall f,
  (a = EmptyString /\ f = true)
  \/ exists t, universal_newlines f (a ++ newline) = t ++ newline.
Proof.
  induction a as [|c a IH]; intros f.
  - destruct f; [left; now split | right; exists EmptyString; reflexivity].
  - right. cbn [append universal_newlines].
    destruct (Ascii.eqb c CR).
    + destruct (IH true) as [[-> _] | (t & ->)].
      * exists EmptyString. reflexivity.
      * exists (String LF t). reflexivity.
    + destruct (Ascii.eqb c LF); [destruct f|].
      * destruct (IH false) as [[_ F] | (t & ->)]; [discriminate|].
        exists t. reflexivity.
      * destruct (IH false) as [[_ F] | (t & ->)]; [discriminate|].
        exists (String LF t). reflexivity.
      * destruct (IH false) as [[_ F] | (t & ->)]; [discriminate|].
        exists (String c t). reflexivity.
Qed.

Lemma split_lines_nil (s : string) : split_lines s = [] -> s = EmptyString.
Proof.
  destruct s as [|c s]; [reflexivity|]. cbn [split_lines].
  destruct (Ascii.eqb c LF); [discriminate|].
  destruct (split_lines s); discriminate.
Qed.

Lemma split_lines_app_nl (a b : string) :
  split_lines (a ++ String LF b)
  = (split_lines (a ++ newline) ++ split_lines b)%list.
Proof.
  induction a as [|c a IH].
  - reflexivity.
  - cbn [append split_lines]. rewrite IH.
    destruct (Ascii.eqb c LF); [reflexivity|].
    destruct (split_lines (a ++ newline)) as [|l ls] eqn:E; [|reflexivity].
    apply split_lines_nil in E. destruct a; discriminate E.
Qed.

(** The lines of a text that continues after a LF are the lines up to
    that LF, then the lines of the rest. *)
Lemma lines_of_app_nl (a b : string) :
  lines_of (a ++ String LF b)
  = (lines_of (a ++ newline) ++ lines_of b)%list.
Proof.
  unfold lines_of. rewrite universal_newlines_app_nl.
  destruct (universal_newlines_ends_nl a false) as [[_ F] | (t & ->)];
    [discriminate|].
  rewrite string_app_assoc. cbn [append newline].
  rewrite split_lines_app_nl. reflexivity.
Qed.

Lemma universal_newlines_plain (l : string) :
  forallb no_newline l = true ->
  universal_newlines false (l ++ newline) = l ++ newline.
Proof.
  induction l as [|c l IH]; intros H; [reflexivity|].
  cbn [forallb] in H. apply andb_true_iff in H. destruct H as [Hc Hl].
  unfold no_newline in Hc. apply andb_true_iff in Hc. destruct Hc as [H1 H2].
  apply negb_true_iff in H1, H2.
  cbn [append universal_newlines]. rewrite H1, H2, (IH Hl). reflexivity.
Qed.

Lemma split_lines_plain (l : string) :
  forallb no_newline l = true ->
  split_lines (l ++ newline) = [l ++ newline].
Proof.
  induction l as [|c l IH]; intros H; [reflexivity|].
  cbn [forallb] in H. apply andb_true_iff in H. destruct H as [Hc Hl].
  unfold no_newline in Hc. apply andb_true_iff in Hc. destruct Hc as [_ H2].
  apply negb_true_iff in H2.
  cbn [append split_lines]. rewrite H2, (IH Hl). reflexivity.
Qed.

Lemma lines_of_plain (l : string) :
  forallb no_newline l = true -> lines_of (l ++ newline) = [l ++ newline].
Proof.
  intros H. unfold lines_of.
  rewrite (universal_newlines_plain l H). exact (split_lines_plain l H).
Qed.

End TextLines.

(* ================================================================== *)
(** ** Reading back a written colour line *)

Section ColorLines.

Import PyStr TextFile GplSpec.
Local Open Scope string_scope.

Lemma token_check_bytes :
  List.forallb (fun n => token_check (Z.of_nat n)) (seq 0 256) = true.
Proof. vm_compute. reflexivity. Qed.

(** [str] of a value in [0, 255] is a token that reads as that value. *)
Lemma str_token (v : Z) : in_byte_range v -> token_of (str v) v.
Proof.
  intros Hv. pose proof token_check_bytes as H.
  rewrite List.forallb_forall in H.
  specialize (H (Z.to_nat v)).
  rewrite Z2Nat.id in H by (unfold in_byte_range in Hv; lia).
  assert (Hin : In (Z.to_nat v) (seq 0 256))
    by (apply in_seq; unfold in_byte_range in Hv; lia).
  specialize (H Hin). unfold token_check in H.
  repeat (apply andb_true_iff in H; destruct H as [H ?]).
  unfold token_of. repeat split; try assumption.
  - intros E. rewrite E in H. discriminate H.
  - destruct (int (str v)) as [v'|e]; [|discriminate].
    match goal with X : (v' =? v)%Z = true |- _ => apply Z.eqb_eq in X; now subst end.
Qed.

Lemma re_split_token (tok : string) : forall c rest,
  forallb nonspace tok = true ->
  isspace_char c = true ->
  re_split_ws_from false (tok ++ String c rest)
  = tok :: re_split_ws_from true rest.
Proof.
  induction tok as [|a tok IH]; intros c rest Htok Hc.
  - cbn [append re_split_ws_from]. rewrite Hc. reflexivity.
  - cbn [forallb] in Htok. apply andb_true_iff in Htok.
    destruct Htok as [Ha Htok]. apply negb_true_iff in Ha.
    cbn [append re_split_ws_from]. rewrite Ha, (IH c rest Htok Hc).
    reflexivity.
Qed.

(** A token between two separators. *)
Lemma re_split_next_token (tok : string) (v : Z) (c : ascii) (rest : string) :
  token_of tok v ->
  isspace_char c = true ->
  re_split_ws_from true (tok ++ String c rest)
  = tok :: re_split_ws_from true rest.
Proof.
  intros (Hne & Htok & _ & _) Hc.
  destruct tok as [|a tok]; [congruence|].
  pose proof (re_split_token (String a tok) c rest Htok Hc) as H.
  cbn [forallb] in Htok. apply andb_true_iff in Htok.
  destruct Htok as [Ha _]. apply negb_true_iff in Ha.
  cbn [append re_split_ws_from] in *. rewrite Ha in *. exact H.
Qed.

Lemma rstrip_snoc_space (s : string) (c : ascii) :
  isspace_char c = true -> rstrip (s ++ String c EmptyString) = rstrip s.
Proof.
  intros Hc. induction s as [|a s IH].
  - cbn. rewrite Hc. reflexivity.
  - cbn [append rstrip]. rewrite IH. reflexivity.
Qed.

Lemma rstrip_snoc_nonspace (s : string) (c : ascii) :
  isspace_char c = false ->
  rstrip (s ++ String c EmptyString) = s ++ String c EmptyString.
Proof.
  intros Hc. induction s as [|a s IH].
  - cbn. rewrite Hc. reflexivity.
  - cbn [append rstrip]. rewrite IH.
    destruct (s ++ String c EmptyString) eqn:E; [|reflexivity].
    destruct s; discriminate E.
Qed.

Lemma row_text_last (R G B : string) :
  row_text R G B
  = (R ++ " " ++ G ++ " " ++ B ++ String TAB "Untitle")
    ++ String "d" EmptyString.
Proof. unfold row_text. rewrite !string_app_assoc. reflexivity. Qed.

Lemma strip_row (R G B : string) (r : Z) :
  token_of R r ->
  strip (row_text R G B ++ newline) = row_text R G B
  /\ strip (row_text R G B) = row_text R G B.
Proof.
  intros (Hne & Htok & _ & _).
  destruct R as [|a R']; [congruence|].
  cbn [forallb] in Htok. apply andb_true_iff in Htok.
  destruct Htok as [Ha _]. apply negb_true_iff in Ha.
  assert (Hl : forall t, lstrip (String a t) = String a t)
    by (intros t; cbn [lstrip]; now rewrite Ha).
  unfold strip. split.
  - change (row_text (String a R') G B ++ newline)
      with (String a ((R' ++ " " ++ G ++ " " ++ B ++ String TAB "Untitled")
                      ++ newline)).
    rewrite Hl.
    change (String a ((R' ++ " " ++ G ++ " " ++ B ++ String TAB "Untitled")
                      ++ newline))
      with (row_text (String a R') G B ++ String LF EmptyString).
    rewrite rstrip_snoc_space by reflexivity.
    rewrite row_text_last. apply rstrip_snoc_nonspace. reflexivity.
  - change (row_text (String a R') G B)
      with (String a (R' ++ " " ++ G ++ " " ++ B ++ String TAB "Untitled")).
    rewrite Hl.
    change (String a (R' ++ " " ++ G ++ " " ++ B ++ String TAB "Untitled"))
      with (row_text (String a R') G B).
    rewrite row_text_last. apply rstrip_snoc_nonspace. reflexivity.
Qed.

Lemma row_not_comment (R G B : string) (r : Z) :
  token_of R r ->
  negb (truthy (row_text R G B)) || startswith (row_text R G B) "#" = false.
Proof.
  intros (Hne & _ & Hd & _).
  destruct R as [|a R']; [congruence|].
  unfold isdigit in Hd. cbn [truthy forallb andb] in Hd.
  apply andb_true_iff in Hd. destruct Hd as [Ha _].
  unfold row_text, startswith. cbn [append truthy negb orb prefix].
  destruct (ascii_dec "#" a) as [<-|]; [discriminate Ha | reflexivity].
Qed.

Lemma re_split_row (R G B : string) (r g b : Z) :
  token_of R r -> token_of G g -> token_of B b ->
  re_split_ws (row_text R G B) = [R; G; B; "Untitled"].
Proof.
  intros HR HG HB. unfold re_split_ws, row_text.
  change (R ++ " " ++ G ++ " " ++ B ++ String TAB "Untitled")
    with (R ++ String " " (G ++ String " " (B ++ String TAB "Untitled"))).
  rewrite re_split_token by (try apply HR; reflexivity).
  rewrite (re_split_next_token G g) by (try apply HG; reflexivity).
  rewrite (re_split_next_token B b) by (try apply HB; reflexivity).
  reflexivity.
Qed.

(** One turn of the loop on a written colour line appends the colour of
    its tokens. *)
Lemma gpl_line_row (R G B : string) (r g b : Z) (colors : list color) :
  token_of R r -> token_of G g -> token_of B b ->
  GUI.gpl_line colors (row_text R G B ++ newline)
  = Ok (colors ++ [(GUI.clamp r, GUI.clamp g, GUI.clamp b)])%list.
Proof.
  intros HR HG HB. unfold GUI.gpl_line.
  destruct (strip_row R G B r HR) as [-> Hs].
  rewrite (row_not_comment R G B r HR), Hs, (re_split_row R G B r g b HR HG HB).
  destruct HR as (_ & _ & HRd & HRi).
  destruct HG as (_ & _ & HGd & HGi).
  destruct HB as (_ & _ & HBd & HBi).
  unfold GUI.try_line. cbn [filter]. rewrite HRd, HGd, HBd.
  change (isdigit "Untitled") with false.
  cbn [comprehension]. rewrite HRi, HGi, HBi. reflexivity.
Qed.

End ColorLines.

(* ================================================================== *)
(** ** Writing a palette to GPL and reading it back *)

Section GplRoundTrip.

Import PyStr TextFile GplSpec Samples.
Local Open Scope string_scope.

Lemma forallb_impl (p q : ascii -> bool) (s : string) :
  (forall c, p c = true -> q c = true) ->
  forallb p s = true -> forallb q s = true.
Proof.
  intros Hpq. induction s as [|c s IH]; [reflexivity|].
  cbn [forallb]. intros H. apply andb_true_iff in H. destruct H as [Hc Hs].
  now rewrite (Hpq c Hc), (IH Hs).
Qed.

Lemma nonspace_no_newline (c : ascii) :
  nonspace c = true -> no_newline c = true.
Proof.
  unfold no_newline. intros H.
  destruct (Ascii.eqb_spec c CR) as [->|_]; [discriminate H|].
  destruct (Ascii.eqb_spec c LF) as [->|_]; [discriminate H|].
  reflexivity.
Qed.

Lemma color_line_row_text (c : color) :
  GUI.color_line c = let '(r, g, b) := c in row_text (str r) (str g) (str b).
Proof. destruct c as [[r g] b]. reflexivity. Qed.

Lemma color_line_plain (c : color) :
  color_in_range c -> forallb no_newline (GUI.color_line c) = true.
Proof.
  destruct c as [[r g] b]. intros (Hr & Hg & Hb).
  destruct (str_token r Hr) as (_ & Tr & _ & _).
  destruct (str_token g Hg) as (_ & Tg & _ & _).
  destruct (str_token b Hb) as (_ & Tb & _ & _).
  apply (forallb_impl _ _ _ nonspace_no_newline) in Tr, Tg, Tb.
  unfold GUI.color_line. rewrite !forallb_app, Tr, Tg, Tb. reflexivity.
Qed.

Lemma gpl_line_color_line (c : color) (colors : list color) :
  color_in_range c ->
  GUI.gpl_line colors (GUI.color_line c ++ newline) = Ok (colors ++ [c])%list.
Proof.
  destruct c as [[r g] b]. intros (Hr & Hg & Hb).
  change (GUI.color_line (r, g, b)) with (row_text (str r) (str g) (str b)).
  rewrite (gpl_line_row _ _ _ r g b colors
             (str_token r Hr) (str_token g Hg) (str_token b Hb)).
  rewrite !clamp_id by assumption. reflexivity.
Qed.

Lemma gpl_lines_app (l1 l2 : list string) : forall colors,
  GUI.gpl_lines (l1 ++ l2)%list colors
  = (colors' <- GUI.gpl_lines l1 colors ;; GUI.gpl_lines l2 colors').
Proof.
  induction l1 as [|l l1 IH]; intros colors; [reflexivity|].
  cbn [app GUI.gpl_lines].
  destruct (GUI.gpl_line colors l) as [colors'|e]; cbn [bind];
    [apply IH | reflexivity].
Qed.

Lemma gpl_lines_rows (P : list color) : forall colors,
  Forall color_in_range P ->
  GUI.gpl_lines (map (fun c => GUI.color_line c ++ newline) P) colors
  = Ok (colors ++ P)%list.
Proof.
  induction P as [|c P IH]; intros colors HP.
  - cbn. now rewrite app_nil_r.
  - inversion HP as [|c' P' Hc HP']; subst.
    cbn [map GUI.gpl_lines]. rewrite (gpl_line_color_line c colors Hc).
    cbn [bind]. rewrite (IH _ HP'), <- app_assoc. reflexivity.
Qed.

Lemma lines_of_rows (P : list color) :
  Forall color_in_range P ->
  lines_of (color_rows P) = map (fun c => GUI.color_line c ++ newline) P.
Proof.
  induction P as [|c P IH]; intros HP; [reflexivity|].
  inversion HP as [|c' P' Hc HP']; subst.
  cbn [color_rows map]. rewrite color_row_eq, string_app_assoc.
  change (newline ++ color_rows P) with (String LF (color_rows P)).
  rewrite lines_of_app_nl, (lines_of_plain _ (color_line_plain c Hc)), (IH HP').
  reflexivity.
Qed.

Lemma parse_written_empty (name : string) (columns : Z) :
  GUI.parse_gpl_file (GUI.return_gimp_palette [] name columns)
  = header_colors name columns.
Proof.
  unfold GUI.parse_gpl_file, header_colors.
  rewrite return_gimp_palette_header.
  change (join newline (map GUI.color_line []) ++ newline) with newline.
  rewrite lines_of_app_nl. change (lines_of newline) with [newline].
  rewrite gpl_lines_app.
  destruct (GUI.gpl_lines (lines_of (gpl_header name columns ++ newline)) [])
    as [x|e]; reflexivity.
Qed.

(** Reading a written text gives the colours of the header lines, then
    the palette. *)
Lemma parse_written (P : list color) (name : string) (columns : Z) :
  Forall color_in_range P ->
  GUI.parse_gpl_file (GUI.return_gimp_palette P name columns)
  = (X <- header_colors name columns ;; Ok (X ++ P)%list).
Proof.
  intros HP. destruct P as [|c P'].
  - rewrite parse_written_empty.
    destruct (header_colors name columns) as [x|e]; cbn [bind];
      [now rewrite app_nil_r | reflexivity].
  - set (P := c :: P') in *.
    unfold GUI.parse_gpl_file, header_colors.
    rewrite return_gimp_palette_header, join_color_lines by discriminate.
    rewrite lines_of_app_nl, gpl_lines_app, (lines_of_rows P HP).
    destruct (GUI.gpl_lines (lines_of (gpl_header name columns ++ newline)) [])
      as [x|e]; cbn [bind]; [|reflexivity].
    apply gpl_lines_rows. exact HP.
Qed.

Lemma header_colors_total (name : string) (columns : Z) :
  exists X, header_colors name columns = Ok X.
Proof.
  destruct (gpl_lines_cases (lines_of (gpl_header name columns ++ newline)) [])
    as (X & HX & _).
  exists X. exact HX.
Qed.

Lemma length_color_row (c : color) : (2 <= String.length (color_row c))%nat.
Proof.
  destruct c as [[r g] b]. unfold color_row.
  rewrite !string_length_app. cbn [String.length newline]. lia.
Qed.

Lemma length_color_rows_app (X P : list color) :
  String.length (color_rows (X ++ P))
  = (String.length (color_rows X) + String.length (color_rows P))%nat.
Proof.
  induction X as [|c X IH]; [reflexivity|].
  cbn [app color_rows]. rewrite !string_length_app, IH. lia.
Qed.

Lemma length_color_rows_pos (X : list color) :
  X <> [] -> (2 <= String.length (color_rows X))%nat.
Proof.
  destruct X as [|c X]; [congruence|]. intros _.
  cbn [color_rows]. rewrite string_length_app.
  pose proof (length_color_row c). lia.
Qed.

Lemma length_written (cs : list color) (name : string) (columns : Z) :
  String.length (GUI.return_gimp_palette cs name columns)
  = (String.length (gpl_header name columns) + 1
     + match cs with
       | [] => 1
       | _ :: _ => String.length (color_rows cs)
       end)%nat.
Proof.
  rewrite return_gimp_palette_header.
  destruct cs as [|c cs].
  - rewrite string_length_app. cbn. lia.
  - rewrite join_color_lines by discriminate.
    rewrite string_length_app. cbn [String.length]. lia.
Qed.

(** C6 as amended: for a palette with entries in [0, 255], an integer
    columns value and a name whose header lines the reader takes no
    colour from (reading the text written for the empty palette gives
    the empty palette), reading the written text gives the palette back,
    and writing that again reproduces the first text. *)
Theorem gpl_write_read_write (P : list color) (name : string) (columns : Z) :
  Forall color_in_range P ->
  GUI.parse_gpl_file (GUI.return_gimp_palette [] name columns) = Ok [] ->
  GUI.parse_gpl_file (GUI.return_gimp_palette P name columns) = Ok P
  /\ gpl_rewrite (GUI.return_gimp_palette P name columns) name columns
     = Ok (GUI.return_gimp_palette P name columns).
Proof.
  intros HP H0. rewrite parse_written_empty in H0.
  assert (H : GUI.parse_gpl_file (GUI.return_gimp_palette P name columns)
              = Ok P)
    by (rewrite (parse_written P name columns HP), H0; reflexivity).
  split; [exact H|]. unfold gpl_rewrite. rewrite H. reflexivity.
Qed.

Lemma gpl_write_read_write_witness :
  GUI.parse_gpl_file (GUI.return_gimp_palette [] "Test palette 2" 16) = Ok []
  /\ GUI.parse_gpl_file (GUI.return_gimp_palette two_colors "Test palette 2" 16)
     = Ok two_colors
  /\ gpl_rewrite (GUI.return_gimp_palette two_colors "Test palette 2" 16)
       "Test palette 2" 16
     = Ok (GUI.return_gimp_palette two_colors "Test palette 2" 16).
Proof.
  assert (H0 : GUI.parse_gpl_file
                 (GUI.return_gimp_palette [] "Test palette 2" 16) = Ok [])
    by (vm_compute; reflexivity).
  split; [exact H0|].
  apply (gpl_write_read_write two_colors "Test palette 2" 16).
  - apply colors_in_range_dec. reflexivity.
  - exact H0.
Defined.

(** C6 as stated fails: with the name [1 2 3] the reader takes the line
    [Name: 1 2 3] for a colour line, and the second write has one colour
    line more than the first. *)
Lemma gpl_rewrite_numeric_name :
  Forall color_in_range [(0, 0, 0)]
  /\ GUI.parse_gpl_file (GUI.return_gimp_palette [(0, 0, 0)] numeric_name 0)
     = Ok [(1, 2, 3); (0, 0, 0)]
  /\ gpl_rewrite (GUI.return_gimp_palette [(0, 0, 0)] numeric_name 0)
       numeric_name 0
     <> Ok (GUI.return_gimp_palette [(0, 0, 0)] numeric_name 0).
Proof.
  split; [apply colors_in_range_dec; reflexivity|].
  split; [vm_compute; reflexivity|].
  vm_compute. discriminate.
Qed.

(** X8: the condition on the name is the weakest one: when the header
    lines do give a colour, the second write differs from the first. *)
Lemma gpl_rewrite_fixed_only_if (P : list color) (name : string)
  (columns : Z) :
  Forall color_in_range P ->
  gpl_rewrite (GUI.return_gimp_palette P name columns) name columns
  = Ok (GUI.return_gimp_palette P name columns) ->
  GUI.parse_gpl_file (GUI.return_gimp_palette [] name columns) = Ok [].
Proof.
  intros HP H. rewrite parse_written_empty.
  unfold gpl_rewrite in H. rewrite (parse_written P name columns HP) in H.
  destruct (header_colors_total name columns) as (X & HX).
  rewrite HX in *. cbn [bind] in H.
  apply (f_equal (fun t => match t with
                           | Ok w => String.length w
                           | Raise _ => 0%nat
                           end)) in H.
  rewrite !length_written in H.
  destruct X as [|x X]; [reflexivity|]. exfalso.
  pose proof (length_color_rows_pos (x :: X) ltac:(discriminate)) as Hx.
  destruct P as [|c P'].
  - rewrite app_nil_r in H. lia.
  - set (P := c :: P') in *.
    change ((x :: X) ++ P)%list with (x :: (X ++ P))%list in H.
    change (x :: (X ++ P))%list with ((x :: X) ++ P)%list in H.
    cbv beta iota in H.
    assert (E : String.length (color_rows ((x :: X) ++ P))
                = String.length (color_rows P)).
    { cbn [app] in *. lia. }
    rewrite length_color_rows_app in E. lia.
Qed.

End GplRoundTrip.

(* ================================================================== *)
(** ** Header lines the reader takes no colour from *)

Section HeaderLines.

Import PyStr TextFile GplSpec.
Local Open Scope string_scope.

Lemma digit_free_lstrip (s : string) :
  digit_free s = true -> digit_free (lstrip s) = true.
Proof.
  induction s as [|c s IH]; intros H; [reflexivity|].
  cbn [lstrip]. destruct (isspace_char c); [|exact H].
  apply IH. unfold digit_free in *. cbn [forallb] in H.
  now apply andb_true_iff in H.
Qed.

Lemma digit_free_rstrip (s : string) :
  digit_free s = true -> digit_free (rstrip s) = true.
Proof.
  unfold digit_free. induction s as [|c s IH]; intros H; [reflexivity|].
  cbn [forallb] in H. apply andb_true_iff in H. destruct H as [Hc Hs].
  cbn [rstrip]. specialize (IH Hs). destruct (rstrip s) as [|c' t].
  - destruct (isspace_char c); [reflexivity|].
    cbn [forallb]. now rewrite Hc.
  - cbn [forallb] in *. now rewrite Hc, IH.
Qed.

Lemma digit_free_tokens (s : string) : forall in_run,
  digit_free s = true ->
  Forall (fun t => digit_free t = true) (re_split_ws_from in_run s).
Proof.
  unfold digit_free. induction s as [|c s IH]; intros in_run H.
  - repeat constructor.
  - cbn [forallb] in H. apply andb_true_iff in H. destruct H as [Hc Hs].
    cbn [re_split_ws_from]. destruct (isspace_char c).
    + destruct in_run; [apply IH; exact Hs|].
      constructor; [reflexivity | apply IH; exact Hs].
    + specialize (IH false Hs).
      destruct (re_split_ws_from false s) as [|t ts].
      * repeat constructor. cbn [forallb]. now rewrite Hc.
      * inversion IH as [|t' ts' Ht Hts]; subst.
        constructor; [|exact Hts]. cbn [forallb]. now rewrite Hc, Ht.
Qed.

Lemma digit_free_not_isdigit (t : string) :
  digit_free t = true -> isdigit t = false.
Proof.
  destruct t as [|c t]; [reflexivity|].
  unfold digit_free, isdigit. cbn [forallb truthy andb]. intros H.
  apply andb_true_iff in H. destruct H as [Hc _].
  apply negb_true_iff in Hc. now rewrite Hc.
Qed.

Lemma filter_isdigit_digit_free (ts : list string) :
  Forall (fun t => digit_free t = true) ts -> filter isdigit ts = [].
Proof.
  induction 1 as [|t ts Ht _ IH]; [reflexivity|].
  cbn [filter]. now rewrite (digit_free_not_isdigit t Ht).
Qed.

(** A line without a digit leaves [colors] as it is. *)
Lemma gpl_line_digit_free (line : string) (colors : list color) :
  digit_free line = true -> GUI.gpl_line colors line = Ok colors.
Proof.
  intros H. unfold GUI.gpl_line.
  destruct (negb (truthy (strip line)) || startswith (strip line) "#");
    [reflexivity|].
  unfold GUI.try_line, re_split_ws.
  rewrite filter_isdigit_digit_free; [reflexivity|].
  apply digit_free_tokens. rewrite strip_idem. unfold strip.
  apply digit_free_rstrip, digit_free_lstrip, H.
Qed.

Lemma digit_free_universal_newlines (s : string) : forall f,
  digit_free s = true -> digit_free (universal_newlines f s) = true.
Proof.
  unfold digit_free. induction s as [|c s IH]; intros f H; [reflexivity|].
  cbn [forallb] in H. apply andb_true_iff in H. destruct H as [Hc Hs].
  cbn [universal_newlines].
  destruct (Ascii.eqb c CR); [|destruct (Ascii.eqb c LF); [destruct f|]];
    cbn [forallb]; rewrite ?Hc, ?(IH _ Hs); reflexivity.
Qed.

Lemma digit_free_split_lines (s : string) :
  digit_free s = true ->
  Forall (fun l => digit_free l = true) (split_lines s).
Proof.
  unfold digit_free. induction s as [|c s IH]; intros H; [constructor|].
  cbn [forallb] in H. apply andb_true_iff in H. destruct H as [Hc Hs].
  specialize (IH Hs). cbn [split_lines]. destruct (Ascii.eqb c LF).
  - constructor; [|exact IH]. cbn [forallb]. now rewrite Hc.
  - destruct (split_lines s) as [|l ls].
    + repeat constructor. cbn [forallb]. now rewrite Hc.
    + inversion IH as [|l' ls' Hl Hls]; subst.
      constructor; [|exact Hls]. cbn [forallb]. now rewrite Hc, Hl.
Qed.

Lemma gpl_lines_digit_free (text : string) (colors : list color) :
  digit_free text = true -> GUI.gpl_lines (lines_of text) colors = Ok colors.
Proof.
  intros H. unfold lines_of.
  pose proof (digit_free_split_lines _
                (digit_free_universal_newlines text false H)) as Hl.
  induction Hl as [|l ls Hd _ IH]; [reflexivity|].
  cbn [GUI.gpl_lines]. rewrite (gpl_line_digit_free l colors Hd). exact IH.
Qed.

Lemma uint_nonspace (d : Decimal.uint) :
  forallb nonspace (NilEmpty.string_of_uint d) = true.
Proof. induction d; cbn [NilEmpty.string_of_uint forallb]; auto. Qed.

Lemma str_nonspace (z : Z) : forallb nonspace (str z) = true.
Proof.
  unfold str. destruct (Z.to_int z) as [d|d]; cbn [NilZero.string_of_int];
    unfold NilZero.string_of_uint; destruct d;
    try reflexivity; try apply (uint_nonspace (_ d)).
  all: cbn [forallb]; apply (uint_nonspace (_ d)).
Qed.

Lemma str_nonempty (z : Z) : str z <> EmptyString.
Proof.
  unfold str. destruct (Z.to_int z) as [d|d]; cbn [NilZero.string_of_int];
    unfold NilZero.string_of_uint; destruct d; discriminate.
Qed.

Lemma re_split_single (T : string) :
  forallb nonspace T = true -> re_split_ws_from false T = [T].
Proof.
  induction T as [|c T IH]; intros H; [reflexivity|].
  cbn [forallb] in H. apply andb_true_iff in H. destruct H as [Hc HT].
  apply negb_true_iff in Hc.
  cbn [re_split_ws_from]. rewrite Hc, (IH HT). reflexivity.
Qed.

Lemma re_split_single_in_run (T : string) :
  forallb nonspace T = true -> T <> EmptyString ->
  re_split_ws_from true T = [T].
Proof.
  intros H Hne. destruct T as [|c T]; [congruence|].
  pose proof (re_split_single (String c T) H) as E.
  cbn [forallb] in H. apply andb_true_iff in H. destruct H as [Hc _].
  apply negb_true_iff in Hc.
  cbn [re_split_ws_from] in *. rewrite Hc in *. exact E.
Qed.

Lemma rstrip_nonspace (T : string) :
  forallb nonspace T = true -> rstrip T = T.
Proof.
  induction T as [|c T IH]; intros H; [reflexivity|].
  cbn [forallb] in H. apply andb_true_iff in H. destruct H as [Hc HT].
  apply negb_true_iff in Hc.
  cbn [rstrip]. rewrite (IH HT). destruct T; [now rewrite Hc | reflexivity].
Qed.

Lemma rstrip_app_fixed (P T : string) :
  rstrip T = T -> T <> EmptyString -> rstrip (P ++ T) = P ++ T.
Proof.
  intros HT Hne. induction P as [|c P IH]; [exact HT|].
  cbn [append rstrip]. rewrite IH.
  destruct (P ++ T) eqn:E; [|reflexivity].
  destruct P; cbn in E; [congruence | discriminate E].
Qed.

(** The line [Columns: n] gives no colour, whatever the integer. *)
Lemma gpl_line_columns (z : Z) (colors : list color) :
  GUI.gpl_line colors (("Columns: " ++ str z) ++ newline) = Ok colors.
Proof.
  pose proof (str_nonspace z) as Hs. pose proof (str_nonempty z) as Hne.
  set (T := str z) in *.
  assert (Hfix : rstrip ("Columns: " ++ T) = "Columns: " ++ T)
    by (apply rstrip_app_fixed; [apply rstrip_nonspace; exact Hs | exact Hne]).
  assert (H1 : strip (("Columns: " ++ T) ++ newline) = "Columns: " ++ T).
  { unfold strip.
    change (lstrip (("Columns: " ++ T) ++ newline))
      with (("Columns: " ++ T) ++ String LF EmptyString).
    rewrite rstrip_snoc_space by reflexivity. exact Hfix. }
  assert (H2 : strip ("Columns: " ++ T) = "Columns: " ++ T)
    by (unfold strip;
        change (lstrip ("Columns: " ++ T)) with ("Columns: " ++ T);
        exact Hfix).
  unfold GUI.gpl_line. rewrite H1, H2.
  change (negb (truthy ("Columns: " ++ T))
          || startswith ("Columns: " ++ T) "#") with false.
  cbv iota. unfold re_split_ws.
  change ("Columns: " ++ T) with ("Columns:" ++ String " " T).
  rewrite re_split_token by reflexivity.
  rewrite (re_split_single_in_run T Hs Hne).
  unfold GUI.try_line. cbn [filter].
  change (isdigit "Columns:") with false. cbv iota.
  destruct (isdigit T); [|reflexivity].
  cbn [comprehension].
  destruct (int_cases T) as [(v & ->) | ->]; reflexivity.
Qed.

Lemma gpl_header_lines (name : string) (columns : Z) :
  gpl_header name columns ++ newline
  = "GIMP Palette"
    ++ String LF (("Name: " ++ name)
                  ++ String LF (("Columns: " ++ str columns)
                                ++ String LF ("#" ++ newline))).
Proof. unfold gpl_header. rewrite !string_app_assoc. reflexivity. Qed.

(** With a name that holds no digit, no header line reads as a colour. *)
Lemma header_colors_digit_free (name : string) (columns : Z) :
  digit_free name = true -> header_colors name columns = Ok [].
Proof.
  intros Hname. unfold header_colors. rewrite gpl_header_lines.
  rewrite (lines_of_app_nl "GIMP Palette"), gpl_lines_app.
  rewrite (gpl_lines_digit_free ("GIMP Palette" ++ newline) [] eq_refl).
  cbn [bind].
  rewrite (lines_of_app_nl ("Name: " ++ name)), gpl_lines_app.
  rewrite (gpl_lines_digit_free (("Name: " ++ name) ++ newline) []).
  2:{ unfold digit_free in *. rewrite !forallb_app, Hname. reflexivity. }
  cbn [bind].
  rewrite (lines_of_app_nl ("Columns: " ++ str columns)), gpl_lines_app.
  rewrite lines_of_plain.
  2:{ rewrite forallb_app.
      rewrite (forallb_impl _ _ _ nonspace_no_newline (str_nonspace columns)).
      reflexivity. }
  cbn [GUI.gpl_lines]. rewrite gpl_line_columns. cbn [bind].
  apply (gpl_lines_digit_free ("#" ++ newline) [] eq_refl).
Qed.

(** X7: for a name that holds no digit the condition of C6 as amended
    is met: the written text reads back as the palette and is reproduced
    by the second write. *)
Lemma gpl_write_read_write_digit_free_name
  (P : list color) (name : string) (columns : Z) :
  Forall color_in_range P ->
  digit_free name = true ->
  GUI.parse_gpl_file (GUI.return_gimp_palette [] name columns) = Ok []
  /\ GUI.parse_gpl_file (GUI.return_gimp_palette P name columns) = Ok P
  /\ gpl_rewrite (GUI.return_gimp_palette P name columns) name columns
     = Ok (GUI.return_gimp_palette P name columns).
Proof.
  intros HP Hname.
  pose proof (header_colors_digit_free name columns Hname) as H0.
  assert (H : GUI.parse_gpl_file (GUI.return_gimp_palette P name columns)
              = Ok P)
    by (rewrite (parse_written P name columns HP), H0; reflexivity).
  split; [rewrite parse_written_empty; exact H0|].
  split; [exact H|]. unfold gpl_rewrite. rewrite H. reflexivity.
Qed.

End HeaderLines.

(* ================================================================== *)
(** ** The ACT writer on any colours, and reading its files back *)

Section ActWriterErrors.

Import Struct ActSpec Samples CodecSpec.

Lemma pack_B_cases (x : Z) :
  (in_byte_range x /\ exists b, pack_B x = Ok b /\ Z_of_byte b = x)
  \/ (~ in_byte_range x /\ pack_B x = Raise struct_error).
Proof.
  destruct ((0 <=? x) && (x <=? 255)) eqn:E.
  - apply andb_true_iff in E. destruct E as [E1 E2].
    apply Z.leb_le in E1, E2.
    left. split; [split; assumption|]. apply pack_B_ok. split; assumption.
  - right. unfold pack_B. rewrite E. split; [|reflexivity].
    unfold in_byte_range. intros [H1 H2].
    apply Z.leb_le in H1, H2. rewrite H1, H2 in E. discriminate E.
Qed.

Lemma pack_3B_cases (r g b : Z) :
  (color_in_range (r, g, b)
   /\ exists bs, pack_3B r g b = Ok bs /\ map Z_of_byte bs = [r; g; b])
  \/ (~ color_in_range (r, g, b) /\ pack_3B r g b = Raise struct_error).
Proof.
  unfold pack_3B, color_in_range.
  destruct (pack_B_cases r) as [(Hr & br & -> & <-) | (Hr & ->)];
    [|right; split; [tauto | reflexivity]].
  destruct (pack_B_cases g) as [(Hg & bg & -> & <-) | (Hg & ->)];
    [|right; split; [tauto | reflexivity]].
  destruct (pack_B_cases b) as [(Hb & bb & -> & <-) | (Hb & ->)];
    [|right; split; [tauto | reflexivity]].
  left. split; [tauto|]. exists [br; bg; bb]. split; reflexivity.
Qed.

Lemma write_colors_cases (colors : list color) : forall f,
  (Forall color_in_range colors
   /\ exists bs, GUI.write_colors colors f = Ok (f ++ bs)
                 /\ map Z_of_byte bs = flat_map channels colors)
  \/ (~ Forall color_in_range colors
      /\ GUI.write_colors colors f = Raise struct_error).
Proof.
  induction colors as [|[[r g] b] rest IH]; intros f.
  - left. split; [constructor|]. exists []. rewrite app_nil_r. now split.
  - cbn [GUI.write_colors].
    destruct (pack_3B_cases r g b) as [(Hc & bs & -> & Hbs) | (Hc & ->)];
      cbn [bind].
    + destruct (IH (f ++ bs)) as [(Hall & bs' & -> & Hbs') | (Hall & ->)].
      * left. split; [constructor; assumption|].
        exists (bs ++ bs'). rewrite app_assoc. split; [reflexivity|].
        rewrite map_app, Hbs, Hbs'. reflexivity.
      * right. split; [|reflexivity].
        intros H. inversion H; subst. contradiction.
    + right. split; [|reflexivity].
      intros H. inversion H; subst. contradiction.
Qed.

(** The layout of the written file, needing only the first 256 colours in
    range. *)
Lemma create_act_file_layout_first (colors : list color) :
  Forall color_in_range (firstn 256 colors) ->
  exists bs, GUI.create_act_file colors = Ok bs
             /\ map Z_of_byte bs = act_layout colors.
Proof.
  intros Hfirst. unfold GUI.create_act_file, act_layout, len.
  destruct (write_colors_ok _ [] Hfirst) as (b1 & -> & H1). cbn [bind app].
  destruct (write_padding_ok (Z.to_nat (256 - Z.of_nat (List.length colors))) b1)
    as (b2 & -> & H2). cbn [bind].
  replace (Z.to_nat (256 - Z.of_nat (List.length colors)))
    with (256 - Nat.min (List.length colors) 256)%nat in H2 by lia.
  destruct ((Z.of_nat (List.length colors) >? 0)
            && (Z.of_nat (List.length colors) <? 256)) eqn:E.
  - apply andb_true_iff in E. destruct E as [E1 E2].
    apply Z.gtb_lt in E1. apply Z.ltb_lt in E2.
    destruct (pack_H_be_ok (Z.of_nat (List.length colors))) as (b3 & -> & H3);
      [lia|]. cbn [bind].
    exists ((b1 ++ b2) ++ b3). split; [reflexivity|].
    replace ((1 <=? List.length colors)%nat && (List.length colors <=? 255)%nat)
      with true
      by (symmetry; apply andb_true_iff; split; apply Nat.leb_le; lia).
    rewrite !map_app, H1, H2, H3, <- app_assoc. reflexivity.
  - exists (b1 ++ b2). split; [reflexivity|].
    replace ((1 <=? List.length colors)%nat && (List.length colors <=? 255)%nat)
      with false.
    + rewrite map_app, H1, H2, app_nil_r. reflexivity.
    + symmetry. apply andb_false_iff. apply andb_false_iff in E.
      destruct E as [E|E]; [left; apply Nat.leb_gt | right; apply Nat.leb_gt].
      * destruct (Z.gtb_spec (Z.of_nat (List.length colors)) 0); [discriminate|lia].
      * apply Z.ltb_ge in E. lia.
Qed.

(** X1: the writer raises [struct.error] exactly when one of the first
    256 colours has a channel outside [0, 255]; otherwise it writes the
    whole layout.  Colours after the 256th are never looked at. *)
Theorem create_act_file_raises_iff (colors : list color) :
  match GUI.create_act_file colors with
  | Ok bs =>
      Forall color_in_range (firstn 256 colors)
      /\ map Z_of_byte bs = act_layout colors
  | Raise e =>
      e = struct_error /\ ~ Forall color_in_range (firstn 256 colors)
  end.
Proof.
  destruct (write_colors_cases (firstn 256 colors) [])
    as [(Hall & _) | (Hall & Hw)].
  - destruct (create_act_file_layout_first colors Hall) as (bs & -> & Hl).
    split; assumption.
  - unfold GUI.create_act_file. rewrite Hw. cbn [bind]. split; [reflexivity|].
    exact Hall.
Qed.

(** X2: whatever the number of colours, a written file reads back as
    exactly 256 colours: the first 256 of the palette, then black up to
    256.  A palette of exactly 256 colours reads back as itself. *)
Theorem act_read_back_256 (P : list color) :
  Forall color_in_range (firstn 256 P) ->
  exists bs,
    GUI.create_act_file P = Ok bs
    /\ GUI.parse_adobe_act bs
       = Ok (firstn 256 P ++ repeat black (256 - List.length P))
    /\ (List.length P = 256%nat -> GUI.parse_adobe_act bs = Ok P).
Proof.
  intros Hall.
  destruct (create_act_file_layout_first P Hall) as (bs & Hw & Hl).
  assert (Hlen : List.length bs = 768%nat \/ List.length bs = 770%nat).
  { rewrite <- (length_map Z_of_byte), Hl, length_act_layout.
    destruct ((1 <=? List.length P)%nat && (List.length P <=? 255)%nat);
      [now right | now left]. }
  assert (Hread : GUI.parse_adobe_act bs
                  = Ok (firstn 256 P ++ repeat black (256 - List.length P))).
  { unfold act_layout in Hl.
    replace (256 - Nat.min (List.length P) 256)%nat
      with (256 - List.length P)%nat in Hl by lia.
    rewrite app_assoc, <- flat_map_app in Hl.
    apply map_eq_app in Hl. destruct Hl as (b1 & b2 & -> & H1 & H2).
    rewrite parse_adobe_act_spec.
    assert (Hc : color_count (b1 ++ b2) = 256%nat).
    { unfold color_count. destruct Hlen as [-> | ->]; reflexivity. }
    rewrite Hc.
    replace (3 * 256 <=? List.length (b1 ++ b2))%nat with true
      by (symmetry; apply Nat.leb_le; lia).
    rewrite (triples_of_channels _ b1 b2 H1).
    assert (Ht : triples b2 = []).
    { destruct ((1 <=? List.length P)%nat && (List.length P <=? 255)%nat);
        destruct b2 as [|x [|y [|z b2']]]; try discriminate H2; reflexivity. }
    rewrite Ht, app_nil_r. f_equal. apply firstn_all2.
    rewrite length_app, repeat_length, length_firstn. lia. }
  exists bs. split; [exact Hw|]. split; [exact Hread|].
  intros H256. rewrite Hread, H256, firstn_all2 by lia.
  rewrite Nat.sub_diag. cbn [repeat]. now rewrite app_nil_r.
Qed.

Lemma act_read_back_256_witness :
  exists bs,
    GUI.create_act_file palette_300 = Ok bs
    /\ GUI.parse_adobe_act bs = Ok (firstn 256 palette_300).
Proof.
  destruct (act_read_back_256 palette_300
              (colors_in_range_dec (firstn 256 palette_300) eq_refl))
    as (bs & Hw & Hr & _).
  exists bs. split; [exact Hw|]. rewrite Hr.
  change (256 - List.length palette_300)%nat with 0%nat.
  cbn [repeat]. now rewrite app_nil_r.
Defined.

End ActWriterErrors.

(* ================================================================== *)
(** ** One codec after the other *)

Section Pipelines.

Import Struct ActSpec PyStr TextFile GplSpec Samples CodecSpec.

Lemma parse_gpl_file_in_range (text : string) :
  exists cs, GUI.parse_gpl_file text = Ok cs /\ Forall color_in_range cs.
Proof.
  destruct (gpl_lines_cases (lines_of text) []) as (cs & Hcs & Hin).
  exists cs. split; [exact Hcs|]. apply Forall_forall. intros c Hc.
  destruct (Hin c Hc) as [[] | (line & _ & Hl)].
  exact (from_data_line_in_range line c Hl).
Qed.

Lemma parse_adobe_act_in_range (bs : list byte) (cs : list color) :
  GUI.parse_adobe_act bs = Ok cs -> Forall color_in_range cs.
Proof.
  rewrite parse_adobe_act_spec.
  destruct (3 * color_count bs <=? List.length bs)%nat; [|discriminate].
  intros H. injection H as <-. apply Forall_forall. intros c Hc.
  apply In_firstn in Hc. pose proof (triples_in_range bs) as Hr.
  rewrite Forall_forall in Hr. exact (Hr c Hc).
Qed.

(** X3: converting any GPL text to ACT never raises: the colours the GPL
    reader returns are always accepted by the ACT writer (of [GUI.py] and
    of [main.py]), which writes 768 or 770 bytes. *)
Theorem gpl_to_act_never_raises (text : string) :
  exists cs bs,
    GUI.parse_gpl_file text = Ok cs
    /\ GUI.create_act_file cs = Ok bs
    /\ Main.parse_gpl_file text = Ok cs
    /\ Main.create_act_file cs = Ok bs
    /\ map Z_of_byte bs = act_layout cs
    /\ (List.length bs = 768%nat \/ List.length bs = 770%nat).
Proof.
  destruct (parse_gpl_file_in_range text) as (cs & Hcs & Hr).
  destruct (create_act_file_layout cs Hr) as (bs & Hw & Hl).
  exists cs, bs. repeat split; try assumption.
  rewrite <- (length_map Z_of_byte), Hl, length_act_layout.
  destruct ((1 <=? List.length cs)%nat && (List.length cs <=? 255)%nat);
    [now right | now left].
Qed.

(** X4: a GPL text written from the colours of an ACT file reads back as
    exactly those colours, when the palette name holds no digit: the
    conversion from ACT to GPL loses nothing. *)
Theorem gpl_of_act_reads_back
  (bs : list byte) (cs : list color) (name : string) (columns : Z) :
  GUI.parse_adobe_act bs = Ok cs ->
  digit_free name = true ->
  GUI.parse_gpl_file (GUI.return_gimp_palette cs name columns) = Ok cs.
Proof.
  intros Hparse Hname.
  rewrite (parse_written cs name columns (parse_adobe_act_in_range bs cs Hparse)).
  rewrite (header_colors_digit_free name columns Hname). reflexivity.
Qed.

Lemma gpl_of_act_reads_back_witness :
  exists cs,
    GUI.parse_adobe_act table_768 = Ok cs
    /\ List.length cs = 256%nat
    /\ GUI.parse_gpl_file (GUI.return_gimp_palette cs "table.gpl" 0) = Ok cs.
Proof.
  assert (H : exists cs, GUI.parse_adobe_act table_768 = Ok cs
                         /\ List.length cs = 256%nat).
  { eexists. split; vm_compute; reflexivity. }
  destruct H as (cs & Hcs & Hlen).
  exists cs. split; [exact Hcs|]. split; [exact Hlen|].
  exact (gpl_of_act_reads_back table_768 cs "table.gpl" 0 Hcs eq_refl).
Defined.

Lemma channels_of_triples (n : nat) : forall bs,
  List.length bs = (3 * n)%nat ->
  flat_map channels (triples bs) = map Z_of_byte bs.
Proof.
  induction n as [|n IH]; intros bs Hlen.
  - destruct bs; [reflexivity | discriminate Hlen].
  - destruct bs as [|a [|b [|c rest]]]; cbn [List.length] in Hlen; try lia.
    cbn [triples flat_map channels app map].
    rewrite (IH rest) by lia. reflexivity.
Qed.

Lemma map_Z_of_byte_inj (l1 : list byte) : forall l2,
  map Z_of_byte l1 = map Z_of_byte l2 -> l1 = l2.
Proof.
  induction l1 as [|a l1 IH]; intros [|b l2] H; try discriminate H.
  - reflexivity.
  - cbn [map] in H. injection H as Hab Hrest.
    now rewrite (Z_of_byte_inj a b Hab), (IH l2 Hrest).
Qed.

(** X5: an ACT file of exactly 768 bytes survives the conversion to GPL
    and back byte for byte, when the palette name holds no digit. *)
Theorem act_gpl_act_identity_768
  (bs : list byte) (name : string) (columns : Z) :
  List.length bs = 768%nat ->
  digit_free name = true ->
  exists cs,
    GUI.parse_adobe_act bs = Ok cs
    /\ GUI.parse_gpl_file (GUI.return_gimp_palette cs name columns) = Ok cs
    /\ GUI.create_act_file cs = Ok bs.
Proof.
  intros Hlen Hname.
  assert (Hparse : GUI.parse_adobe_act bs = Ok (triples bs)).
  { rewrite parse_adobe_act_spec.
    assert (Hc : color_count bs = 256%nat)
      by (unfold color_count; rewrite Hlen; reflexivity).
    rewrite Hc, Hlen. change (3 * 256 <=? 768)%nat with true. cbv iota.
    f_equal. apply firstn_all2. rewrite length_triples, Hlen. reflexivity. }
  pose proof (parse_adobe_act_in_range bs _ Hparse) as Hr.
  exists (triples bs). split; [exact Hparse|].
  split.
  - rewrite (parse_written _ name columns Hr).
    rewrite (header_colors_digit_free name columns Hname). reflexivity.
  - destruct (create_act_file_layout _ Hr) as (out & Hw & Hl).
    rewrite Hw. f_equal. apply map_Z_of_byte_inj. rewrite Hl.
    assert (Hn : List.length (triples bs) = 256%nat)
      by (rewrite length_triples, Hlen; reflexivity).
    unfold act_layout. rewrite Hn.
    rewrite firstn_all2 by lia.
    change (256 - Nat.min 256 256)%nat with 0%nat.
    change ((1 <=? 256)%nat && (256 <=? 255)%nat) with false.
    cbn [repeat flat_map]. rewrite !app_nil_r.
    apply (channels_of_triples 256). exact Hlen.
Qed.

Lemma act_gpl_act_identity_768_witness :
  exists cs,
    GUI.parse_adobe_act table_768 = Ok cs
    /\ GUI.parse_gpl_file (GUI.return_gimp_palette cs "table.gpl" 0) = Ok cs
    /\ GUI.create_act_file cs = Ok table_768.
Proof.
  apply (act_gpl_act_identity_768 table_768 "table.gpl" 0).
  - vm_compute. reflexivity.
  - reflexivity.
Defined.

(** X6: whatever the name, a written GPL text reads back as the colours
    the reader takes from the header lines, followed by the palette: a
    name can put colours in front, it never changes or drops one of the
    palette. *)
Theorem gpl_read_back_keeps_palette
  (P : list color) (name : string) (columns : Z) :
  Forall color_in_range P ->
  exists X,
    GUI.parse_gpl_file (GUI.return_gimp_palette [] name columns) = Ok X
    /\ GUI.parse_gpl_file (GUI.return_gimp_palette P name columns)
       = Ok (X ++ P).
Proof.
  intros HP. destruct (header_colors_total name columns) as (X & HX).
  exists X. rewrite parse_written_empty, (parse_written P name columns HP), HX.
  split; reflexivity.
Qed.

Lemma gpl_read_back_keeps_palette_witness :
  GUI.parse_gpl_file (GUI.return_gimp_palette two_colors numeric_name 0)
  = Ok ((1, 2, 3) :: two_colors).
Proof.
  destruct (gpl_read_back_keeps_palette two_colors numeric_name 0
              (colors_in_range_dec two_colors eq_refl)) as (X & HX & HP).
  rewrite HP. f_equal.
  assert (E : GUI.parse_gpl_file (GUI.return_gimp_palette [] numeric_name 0)
              = Ok [(1, 2, 3)]) by (vm_compute; reflexivity).
  rewrite E in HX. injection HX as <-. reflexivity.
Defined.

End Pipelines.

(* ================================================================== *)
(** ** The GPL reader as a whole *)

Section GplReaderShape.

Import PyStr TextFile GplSpec Samples CodecSpec.
Local Open Scope string_scope.

Lemma gpl_write_read_write_digit_free_name_witness :
  GUI.parse_gpl_file (GUI.return_gimp_palette two_colors "My palette" (-4))
  = Ok two_colors
  /\ gpl_rewrite (GUI.return_gimp_palette two_colors "My palette" (-4))
       "My palette" (-4)
     = Ok (GUI.return_gimp_palette two_colors "My palette" (-4)).
Proof.
  exact (proj2 (gpl_write_read_write_digit_free_name
                  two_colors "My palette" (-4)
                  (colors_in_range_dec two_colors eq_refl) eq_refl)).
Defined.

Lemma gpl_rewrite_fixed_only_if_witness :
  GUI.parse_gpl_file (GUI.return_gimp_palette [] "Test palette 2" 16) = Ok [].
Proof.
  apply (gpl_rewrite_fixed_only_if two_colors "Test palette 2" 16).
  - apply colors_in_range_dec. reflexivity.
  - vm_compute. reflexivity.
Defined.

(** One turn of the loop appends to [colors] what it appends to an empty
    list. *)
Lemma gpl_line_acc (colors : list color) (line : string) :
  GUI.gpl_line colors line = Ok (colors ++ line_colors line)%list.
Proof.
  unfold line_colors, GUI.gpl_line.
  destruct (negb (truthy (strip line)) || startswith (strip line) "#");
    [now rewrite app_nil_r|].
  unfold GUI.try_line.
  destruct (comprehension_int_cases
              (filter isdigit (re_split_ws (strip (strip line)))))
    as [(all & ->) | ->]; cbn [bind]; [|now rewrite app_nil_r].
  destruct (len (firstn 3 all) >=? 3)%Z; [|now rewrite app_nil_r].
  destruct (map GUI.clamp (firstn 3 (firstn 3 all)))
    as [|r [|g [|b [|x rest]]]]; try (now rewrite app_nil_r).
  reflexivity.
Qed.

Lemma length_line_colors (line : string) :
  (List.length (line_colors line) <= 1)%nat.
Proof.
  unfold line_colors.
  destruct (gpl_line_cases [] line) as [-> | (c & _ & ->)]; cbn; lia.
Qed.

Lemma gpl_lines_flat_map (lines : list string) : forall colors,
  GUI.gpl_lines lines colors = Ok (colors ++ flat_map line_colors lines)%list.
Proof.
  induction lines as [|l ls IH]; intros colors.
  - cbn. now rewrite app_nil_r.
  - cbn [GUI.gpl_lines flat_map]. rewrite gpl_line_acc. cbn [bind].
    rewrite IH, <- app_assoc. reflexivity.
Qed.

(** X9: the palette read from a text is the colours of its lines, one
    after the other in file order, and no line gives more than one
    colour, however many numbers it holds. *)
Theorem parse_gpl_file_line_by_line (text : string) :
  GUI.parse_gpl_file text = Ok (flat_map line_colors (lines_of text))
  /\ Main.parse_gpl_file text = Ok (flat_map line_colors (lines_of text))
  /\ Forall (fun l => (List.length (line_colors l) <= 1)%nat) (lines_of text)
  /\ (List.length (flat_map line_colors (lines_of text))
      <= List.length (lines_of text))%nat.
Proof.
  assert (H : GUI.parse_gpl_file text = Ok (flat_map line_colors (lines_of text)))
    by (unfold GUI.parse_gpl_file; now rewrite gpl_lines_flat_map).
  split; [exact H|]. split; [rewrite main_parse_gpl_file_eq; exact H|].
  split.
  - apply Forall_forall. intros l _. apply length_line_colors.
  - clear H. generalize (lines_of text). intros ls.
    induction ls as [|l ls IH]; [cbn; lia|].
    cbn [flat_map]. rewrite length_app. cbn [List.length].
    pose proof (length_line_colors l). lia.
Qed.

(** X10: reading two texts put one after the other, the first ended by
    a LF, gives the palette of the first followed by the palette of the
    second. *)
Theorem parse_gpl_file_concat (a b : string) :
  exists X Y,
    GUI.parse_gpl_file (a ++ newline) = Ok X
    /\ GUI.parse_gpl_file b = Ok Y
    /\ GUI.parse_gpl_file (a ++ String LF b) = Ok (X ++ Y)%list.
Proof.
  exists (flat_map line_colors (lines_of (a ++ newline))),
         (flat_map line_colors (lines_of b)).
  unfold GUI.parse_gpl_file.
  rewrite lines_of_app_nl, !gpl_lines_flat_map, flat_map_app.
  repeat split.
Qed.

Lemma decimal_value_nonneg (s : string) : forall acc,
  forallb isdecimal_char s = true -> 0 <= acc -> 0 <= decimal_value acc s.
Proof.
  induction s as [|c s IH]; intros acc H Hacc; [exact Hacc|].
  cbn [forallb] in H. apply andb_true_iff in H. destruct H as [Hc Hs].
  cbn [decimal_value]. apply (IH _ Hs).
  unfold isdecimal_char in Hc. apply andb_true_iff in Hc.
  destruct Hc as [Hlo _]. apply N.leb_le in Hlo. lia.
Qed.

(** X11: every token the reader converts, that is, every token that
    passed [isdigit], is a non-negative integer, so the lower bound of
    the clamp never acts: each channel of a colour the reader takes from
    a line is the smaller of 255 and the number written. *)
Theorem int_token_nonneg :
  (forall tok v,
      isdigit tok = true -> int tok = Ok v ->
      0 <= v /\ GUI.clamp v = Z.min 255 v /\ Main.clamp v = Z.min 255 v)
  /\ (forall line c,
        In c (line_colors line) ->
        exists a b d rest x y z,
          digit_tokens line = a :: b :: d :: rest
          /\ int a = Ok x /\ int b = Ok y /\ int d = Ok z
          /\ 0 <= x /\ 0 <= y /\ 0 <= z
          /\ c = (Z.min 255 x, Z.min 255 y, Z.min 255 z)).
Proof.
  assert (H1 : forall tok v,
             isdigit tok = true -> int tok = Ok v ->
             0 <= v /\ GUI.clamp v = Z.min 255 v /\ Main.clamp v = Z.min 255 v).
  { intros tok v _ H. unfold int in H.
    destruct (truthy tok && forallb isdecimal_char tok
              && (String.length tok <=? int_max_str_digits)%nat) eqn:E;
      [|discriminate H].
    injection H as <-.
    apply andb_true_iff in E. destruct E as [E _].
    apply andb_true_iff in E. destruct E as [_ E].
    pose proof (decimal_value_nonneg tok 0 E ltac:(lia)) as Hv.
    unfold GUI.clamp, Main.clamp. lia. }
  split; [exact H1|].
  intros line c Hc. unfold line_colors in Hc.
  destruct (gpl_line_cases [] line) as [E | (c' & Hfrom & E)];
    rewrite E in Hc; [destruct Hc|].
  destruct Hc as [<- | []].
  destruct Hfrom as (a & b & d & rest & x & y & z & Hf & Ha & Hb & Hd & ->).
  assert (Hin : forall t, In t [a; b; d] -> isdigit t = true).
  { intros t Ht.
    assert (Hin' : In t (digit_tokens line))
      by (rewrite Hf; cbn in Ht |- *; tauto).
    unfold digit_tokens in Hin'. apply filter_In in Hin'. apply Hin'. }
  destruct (H1 a x (Hin a ltac:(cbn; tauto)) Ha) as (Hx & Hcx & _).
  destruct (H1 b y (Hin b ltac:(cbn; tauto)) Hb) as (Hy & Hcy & _).
  destruct (H1 d z (Hin d ltac:(cbn; tauto)) Hd) as (Hz & Hcz & _).
  exists a, b, d, rest, x, y, z. rewrite Hcx, Hcy, Hcz.
  repeat split; assumption.
Qed.

Lemma int_token_nonneg_witness :
  0 <= 300 /\ GUI.clamp 300 = Z.min 255 300
  /\ exists x y z,
       0 <= x /\ 0 <= y /\ 0 <= z
       /\ (255, 0, 128) = (Z.min 255 x, Z.min 255 y, Z.min 255 z).
Proof.
  destruct int_token_nonneg as [Htok Hline].
  destruct (Htok "300" 300 eq_refl eq_refl) as (H0 & Hc & _).
  split; [exact H0|]. split; [exact Hc|].
  destruct (Hline line_300_0_128 (255, 0, 128) (or_introl eq_refl))
    as (a & b & d & rest & x & y & z & _ & _ & _ & _ & Hx & Hy & Hz & E).
  exists x, y, z. repeat split; assumption.
Defined.

Lemma universal_newlines_to_crlf (s : string) :
  forallb no_cr s = true ->
  universal_newlines false (to_crlf s) = universal_newlines false s.
Proof.
  induction s as [|c s IH]; intros H; [reflexivity|].
  cbn [forallb] in H. apply andb_true_iff in H. destruct H as [Hc Hs].
  unfold no_cr in Hc. apply negb_true_iff in Hc.
  cbn [to_crlf]. destruct (Ascii.eqb_spec c LF) as [->|Hne].
  - cbn. rewrite (IH Hs). reflexivity.
  - cbn [universal_newlines]. rewrite Hc.
    destruct (Ascii.eqb_spec c LF) as [|_]; [contradiction|].
    rewrite (IH Hs). reflexivity.
Qed.

(** X12: a text without CR reads the same when its line ends are CR LF,
    as in a file written in text mode on Windows. *)
Theorem parse_gpl_file_crlf (text : string) :
  forallb no_cr text = true ->
  GUI.parse_gpl_file (to_crlf text) = GUI.parse_gpl_file text
  /\ Main.parse_gpl_file (to_crlf text) = Main.parse_gpl_file text.
Proof.
  intros H.
  assert (E : lines_of (to_crlf text) = lines_of text)
    by (unfold lines_of; now rewrite (universal_newlines_to_crlf text H)).
  split; [unfold GUI.parse_gpl_file | unfold Main.parse_gpl_file];
    now rewrite E.
Qed.

Lemma parse_gpl_file_crlf_witness :
  GUI.parse_gpl_file (to_crlf tolerance_text)
  = Ok [(10, 20, 30); (40, 50, 60)].
Proof.
  rewrite (proj1 (parse_gpl_file_crlf tolerance_text eq_refl)).
  vm_compute. reflexivity.
Defined.

End GplReaderShape.

(* ================================================================== *)
(** ** The command-line converter *)

Section CliFacts.

Import Struct ActSpec PyStr Env MainCli Samples RunSamples.






Lemma main_effects_print_refused :
  status (main sample_world stdout_refuses_success
            ["main.py"; "in.gpl"; "out.act"]%string) = 1
  /\ exists bs,
       done (main sample_world stdout_refuses_success
               ["main.py"; "in.gpl"; "out.act"]%string)
       = WroteBytes "out.act" bs.
Proof. split; [|eexists]; vm_compute; reflexivity. Qed.

End CliFacts.

(* ================================================================== *)
(** ** The window: buttons and convert handlers *)

Section AppFacts.

Import Struct ActSpec PyStr TextFile GplSpec Env MainCli App Samples.
Import CodecSpec RunSamples.

Lemma strip_truthy (s : string) : truthy (strip s) = true -> truthy s = true.
Proof. destruct s; [discriminate | reflexivity]. Qed.

Lemma set_var_follows (var : path_var) (value : string) (a : widgets) :
  buttons_follow_paths a -> buttons_follow_paths (set_var var value a).
Proof.
  intros [Ha Hg]. destruct var; split; cbn; try reflexivity; assumption.
Qed.

Lemma step_follows (a : widgets) (ev : event) :
  buttons_follow_paths a -> buttons_follow_paths (step a ev).
Proof.
  intros H. destruct ev as [var value | var ftype answer]; cbn [step].
  - apply set_var_follows, H.
  - unfold _browse_file. destruct (truthy answer);
      [apply set_var_follows, H | exact H].
Qed.

Lemma after_follows (events : list event) : forall a,
  buttons_follow_paths a -> buttons_follow_paths (after events a).
Proof.
  induction events as [|ev events IH]; intros a H; [exact H|].
  apply (IH (step a ev)), step_follows, H.
Qed.

(** X15: whatever the user types or picks in the file dialogs, each
    convert button is enabled exactly when its path holds something other
    than whitespace; so a click on an enabled button always finds a path
    that is not empty, and the handlers' guard never turns it away. *)
Theorem buttons_always_follow_paths (events : list event) :
  buttons_follow_paths (after events built)
  /\ guard_passes (btn_convert_act (after events built))
                  (act_path_var (after events built)) = true
  /\ guard_passes (btn_convert_gpl (after events built))
                  (gpl_path_var (after events built)) = true.
Proof.
  assert (H : buttons_follow_paths (after events built))
    by (apply after_follows; split; reflexivity).
  split; [exact H|]. destruct H as [Ha Hg].
  split.
  - rewrite Ha.
    destruct (truthy (strip (act_path_var (after events built)))) eqn:E;
      [exact (strip_truthy _ E) | reflexivity].
  - rewrite Hg.
    destruct (truthy (strip (gpl_path_var (after events built)))) eqn:E;
      [exact (strip_truthy _ E) | reflexivity].
Qed.

(** X16: the GPL to ACT handler never shows a failure of the codec; it
    opens the save dialog exactly when the text gave at least one colour,
    shows the [No valid colors] box exactly when it gave none, and writes
    a file, the whole 768 or 770 bytes, only to the path the dialog
    returned. *)
Theorem convert_gpl_to_act_outcomes (w : world) (a : widgets) (answer : string) :
  codec_failure (shown (_convert_gpl_to_act w a answer)) = false
  /\ (asked_save (_convert_gpl_to_act w a answer) = true
      <-> truthy (gpl_path_var a) = true
          /\ exists text c cs,
               text_of w (gpl_path_var a) = Some text
               /\ GUI.parse_gpl_file text = Ok (c :: cs))
  /\ (shown (_convert_gpl_to_act w a answer) = Some NoValidColors
      <-> truthy (gpl_path_var a) = true
          /\ exists text,
               text_of w (gpl_path_var a) = Some text
               /\ GUI.parse_gpl_file text = Ok [])
  /\ match saved (_convert_gpl_to_act w a answer) with
     | WroteBytes p bs =>
         p = answer /\ truthy answer = true
         /\ (List.length bs = 768%nat \/ List.length bs = 770%nat)
         /\ shown (_convert_gpl_to_act w a answer) = Some (Success p)
     | WroteText _ _ => False
     | WriteFailed p => can_write w p = false
     | Untouched => True
     end.
Proof.
  unfold _convert_gpl_to_act.
  destruct (truthy (gpl_path_var a)) eqn:Ep; cbn [negb].
  2:{ split; [reflexivity|].
      split; [split; [discriminate | intros [H _]; discriminate H]|].
      split; [split; [discriminate | intros [H _]; discriminate H]|].
      exact I. }
  destruct (text_of w (gpl_path_var a)) as [text|] eqn:Et.
  2:{ split; [reflexivity|].
      split; [split; [discriminate
                     | intros (_ & t & c & cs & H & _); discriminate H]|].
      split; [split; [discriminate | intros (_ & t & H & _); discriminate H]|].
      exact I. }
  destruct (parse_gpl_file_in_range text) as (cs & Hcs & Hr). rewrite Hcs.
  destruct cs as [|c cs]; cbn [nonempty negb].
  - split; [reflexivity|].
    split; [split; [discriminate|]|].
    { intros (_ & t & c & cs & Ht & Hp). injection Ht as <-.
      rewrite Hcs in Hp. discriminate Hp. }
    split; [|exact I].
    split; [|reflexivity].
    intros _. split; [reflexivity|]. exists text. split; [reflexivity | exact Hcs].
  - destruct (create_act_file_layout _ Hr) as (bs & Hw & Hl).
    assert (Hn : List.length bs = 768%nat \/ List.length bs = 770%nat).
    { rewrite <- (length_map Z_of_byte), Hl, length_act_layout.
      destruct ((1 <=? List.length (c :: cs))%nat
                && (List.length (c :: cs) <=? 255)%nat);
        [now right | now left]. }
    assert (Hno : ~ (true = true /\ exists t, Some text = Some t
                       /\ GUI.parse_gpl_file t = Ok [])).
    { intros (_ & t & Ht & Hp). injection Ht as <-.
      rewrite Hcs in Hp. discriminate Hp. }
    assert (Hyes : true = true /\ exists t c0 cs0, Some text = Some t
                       /\ GUI.parse_gpl_file t = Ok (c0 :: cs0)).
    { split; [reflexivity|]. exists text, c, cs. now split. }
    destruct (truthy answer) eqn:Ea.
    + destruct (can_write w answer) eqn:Ew; cbn [negb].
      * rewrite Hw. cbn [shown asked_save saved codec_failure].
        split; [reflexivity|].
        split; [split; [intros _; exact Hyes | reflexivity]|].
        split; [split; [discriminate | intros H; destruct (Hno H)]|].
        repeat split; try assumption; reflexivity.
      * cbn [shown asked_save saved codec_failure].
        split; [reflexivity|].
        split; [split; [intros _; exact Hyes | reflexivity]|].
        split; [split; [discriminate | intros H; destruct (Hno H)]|].
        exact Ew.
    + cbn [shown asked_save saved codec_failure].
      split; [reflexivity|].
      split; [split; [intros _; exact Hyes | reflexivity]|].
      split; [split; [discriminate | intros H; destruct (Hno H)]|].
      exact I.
Qed.

Lemma parse_adobe_act_raises_iff (bs : list byte) :
  (exists e, GUI.parse_adobe_act bs = Raise e)
  <-> List.length bs = 772%nat /\ (257 < color_count bs)%nat.
Proof.
  rewrite parse_adobe_act_spec.
  destruct (3 * color_count bs <=? List.length bs)%nat eqn:E.
  - apply Nat.leb_le in E. split.
    + intros (e & H). discriminate H.
    + intros (H1 & H2). lia.
  - apply Nat.leb_gt in E. split; [intros _ | intros _; eexists; reflexivity].
    unfold color_count in *.
    destruct (List.length bs =? 772)%nat eqn:Hsz.
    + apply Nat.eqb_eq in Hsz. split; [exact Hsz | lia].
    + pose proof (Nat.Div0.mul_div_le (List.length bs) 3). lia.
Qed.

(** Reading a text that reads back as [written] gives what reading
    [written] gives. *)
Lemma parse_reads_back (written text' : string) :
  reads_back written text' ->
  GUI.parse_gpl_file text' = GUI.parse_gpl_file written.
Proof.
  intros [-> | [Hcr ->]]; [reflexivity|].
  unfold GUI.parse_gpl_file, lines_of.
  now rewrite (universal_newlines_to_crlf written Hcr).
Qed.

(** X17: the ACT to GPL handler shows a failure of the codec exactly
    when the file has 772 bytes and a count field above 257.  The text
    it hands to [f.write] is the GPL text of the colours of the ACT file;
    whenever the file then reads back as that text (as it need not, when
    the platform's encoding is not UTF-8 and the name is not ASCII), the
    GPL reader returns the colours of the ACT file, after the colours (if
    any) that it takes from the header lines, and exactly the colours of
    the ACT file when the base name of the output holds no digit. *)
Theorem convert_act_to_gpl_outcomes
  (w : world) (write_text_ok : string -> string -> bool)
  (a : widgets) (answer : string) :
  (codec_failure (shown (_convert_act_to_gpl w write_text_ok a answer)) = true
   <-> truthy (act_path_var a) = true
       /\ exists bs,
            bytes_of w (act_path_var a) = Some bs
            /\ List.length bs = 772%nat /\ (257 < color_count bs)%nat)
  /\ match saved (_convert_act_to_gpl w write_text_ok a answer) with
     | WroteText p text =>
         p = answer
         /\ write_text_ok p text = true
         /\ shown (_convert_act_to_gpl w write_text_ok a answer)
            = Some (Success p)
         /\ exists bs cs X,
              bytes_of w (act_path_var a) = Some bs
              /\ GUI.parse_adobe_act bs = Ok cs
              /\ text = GUI.return_gimp_palette cs (basename w p) 0
              /\ header_colors (basename w p) 0 = Ok X
              /\ (digit_free (basename w p) = true -> X = [])
              /\ forall text',
                   reads_back text text' ->
                   GUI.parse_gpl_file text' = Ok (X ++ cs)
     | WroteBytes _ _ => False
     | WriteFailed p =>
         exists t, write_text_ok p t = false
     | Untouched => True
     end.
Proof.
  unfold _convert_act_to_gpl.
  destruct (truthy (act_path_var a)) eqn:Ep; cbn [negb].
  2:{ split; [|exact I].
      split; [discriminate | intros [H _]; discriminate H]. }
  destruct (bytes_of w (act_path_var a)) as [bs|] eqn:Eb.
  2:{ split; [|exact I].
      split; [discriminate | intros (_ & b & H & _); discriminate H]. }
  destruct (GUI.parse_adobe_act bs) as [cs|e] eqn:Ea.
  - assert (Hok : ~ (true = true
                     /\ exists b, Some bs = Some b
                          /\ List.length b = 772%nat
                          /\ (257 < color_count b)%nat)).
    { intros (_ & b & Hb & H). injection Hb as <-.
      apply (proj2 (parse_adobe_act_raises_iff bs)) in H.
      destruct H as (e & H). rewrite Ea in H. discriminate H. }
    destruct (truthy answer).
    + cbv zeta.
      destruct (write_text_ok answer
                  (GUI.return_gimp_palette cs (basename w answer) 0)) eqn:Ew;
        cbn [shown saved codec_failure].
      * split; [split; [discriminate | intros H; destruct (Hok H)]|].
        split; [reflexivity|]. split; [exact Ew|]. split; [reflexivity|].
        pose proof (parse_adobe_act_in_range bs cs Ea) as Hr.
        destruct (header_colors_total (basename w answer) 0) as (X & HX).
        exists bs, cs, X. split; [reflexivity|]. split; [exact Ea|].
        split; [reflexivity|]. split; [exact HX|].
        split.
        -- intros Hd. rewrite (header_colors_digit_free _ 0 Hd) in HX.
           injection HX as <-. reflexivity.
        -- intros text' Hback. rewrite (parse_reads_back _ _ Hback).
           rewrite (parse_written cs _ 0 Hr), HX. reflexivity.
      * split; [split; [discriminate | intros H; destruct (Hok H)]|].
        eexists. exact Ew.
    + cbn [shown saved codec_failure].
      split; [split; [discriminate | intros H; destruct (Hok H)]|].
      exact I.
  - cbn [shown saved codec_failure]. split; [|exact I].
    split; [|reflexivity]. intros _. split; [reflexivity|].
    exists bs. split; [reflexivity|].
    apply parse_adobe_act_raises_iff. exists e. exact Ea.
Qed.

(** X18: an ACT file of fewer than 3 bytes, saved under a name whose
    base name holds no digit and whose text the platform can write, is
    converted without complaint to a GPL text with no colour line; when
    that file reads back as the text written, converting it back is
    refused with the [No valid colors] box and writes nothing. *)
Theorem tiny_act_gives_gpl_that_is_refused
  (w : world) (write_text_ok : string -> string -> bool)
  (a : widgets) (answer : string) (bs : list byte) :
  truthy (act_path_var a) = true ->
  bytes_of w (act_path_var a) = Some bs ->
  (List.length bs < 3)%nat ->
  truthy answer = true ->
  write_text_ok answer (GUI.return_gimp_palette [] (basename w answer) 0)
  = true ->
  digit_free (basename w answer) = true ->
  _convert_act_to_gpl w write_text_ok a answer
  = {| shown := Some (Success answer); asked_save := true;
       saved := WroteText answer
                  (GUI.return_gimp_palette [] (basename w answer) 0) |}
  /\ forall w' a' answer' text',
       gpl_path_var a' = answer ->
       reads_back (GUI.return_gimp_palette [] (basename w answer) 0) text' ->
       text_of w' answer = Some text' ->
       _convert_gpl_to_act w' a' answer'
       = {| shown := Some NoValidColors; asked_save := false;
            saved := Untouched |}.
Proof.
  intros Ep Eb Hlen Ea Ew Hd.
  assert (Hparse : GUI.parse_adobe_act bs = Ok []).
  { rewrite parse_adobe_act_spec.
    assert (Hc : color_count bs = 0%nat).
    { unfold color_count.
      replace (List.length bs =? 772)%nat with false
        by (symmetry; apply Nat.eqb_neq; lia).
      apply Nat.div_small. exact Hlen. }
    rewrite Hc. reflexivity. }
  split.
  - unfold _convert_act_to_gpl. rewrite Ep, Eb, Hparse, Ea. cbv zeta.
    rewrite Ew. reflexivity.
  - intros w' a' answer' text' Hpath Hback Htext.
    unfold _convert_gpl_to_act. rewrite Hpath, Ea, Htext. cbn [negb].
    rewrite (parse_reads_back _ _ Hback).
    rewrite parse_written_empty, (header_colors_digit_free _ 0 Hd).
    reflexivity.
Qed.

Lemma tiny_act_gives_gpl_that_is_refused_witness :
  _convert_act_to_gpl (tiny_world EmptyString) text_ok tiny_widgets "out.gpl"
  = {| shown := Some (Success "out.gpl"); asked_save := true;
       saved := WroteText "out.gpl"
                  (GUI.return_gimp_palette [] "out.gpl" 0) |}
  /\ _convert_gpl_to_act
       (tiny_world (to_crlf (GUI.return_gimp_palette [] "out.gpl" 0)))
       tiny_widgets "back.act"
     = {| shown := Some NoValidColors; asked_save := false;
          saved := Untouched |}.
Proof.
  destruct (tiny_act_gives_gpl_that_is_refused
              (tiny_world EmptyString) text_ok tiny_widgets "out.gpl"
              [x01; x02]
              eq_refl eq_refl ltac:(cbn; lia) eq_refl eq_refl eq_refl)
    as (Hrun & Hback).
  split; [exact Hrun|].
  apply (Hback _ _ _ (to_crlf (GUI.return_gimp_palette [] "out.gpl" 0))).
  - reflexivity.
  - right. split; reflexivity.
  - reflexivity.
Defined.



End AppFacts.

(* ================================================================== *)
(** ** The lines the GPL reader discards *)

Section ReaderTolerance.

Import PyStr TextFile GplSpec Samples CodecSpec.
Local Open Scope string_scope.

Lemma lstrip_spaces (ws rest : string) :
  forallb isspace_char ws = true -> lstrip (ws ++ rest) = lstrip rest.
Proof.
  induction ws as [|c ws IH]; intros H; [reflexivity|].
  cbn [forallb] in H. apply andb_true_iff in H. destruct H as [Hc Hws].
  cbn [append lstrip]. rewrite Hc. exact (IH Hws).
Qed.

(** A line whose first character after leading whitespace is [#] is left
    out, whatever follows the [#]. *)
Lemma gpl_line_comment (ws rest : string) (colors : list color) :
  forallb isspace_char ws = true ->
  GUI.gpl_line colors (ws ++ String "#" rest) = Ok colors.
Proof.
  intros Hws. unfold GUI.gpl_line, strip.
  rewrite (lstrip_spaces ws _ Hws).
  change (lstrip (String "#" rest)) with (String "#" rest).
  destruct (rstrip_head "#" rest eq_refl) as (t & ->).
  destruct t; reflexivity.
Qed.

(** A line of whitespace only is left out. *)
Lemma gpl_line_blank (ws : string) (colors : list color) :
  forallb isspace_char ws = true -> GUI.gpl_line colors ws = Ok colors.
Proof.
  intros Hws. unfold GUI.gpl_line, strip.
  rewrite <- (string_app_nil_r ws), (lstrip_spaces ws _ Hws).
  reflexivity.
Qed.

(** A line with fewer than three digit-only tokens is left out. *)
Lemma gpl_line_few_numbers (line : string) (colors : list color) :
  (List.length (digit_tokens line) < 3)%nat ->
  GUI.gpl_line colors line = Ok colors.
Proof.
  intros Hlen.
  destruct (gpl_line_cases colors line)
    as [H | (c & (a & b & d & rest & x & y & z & Hf & _) & _)];
    [exact H|].
  rewrite Hf in Hlen. cbn [List.length] in Hlen. lia.
Qed.

(** C9: the sample file parses to [(10,20,30), (40,50,60)]: its header
    lines, its comment line and its line that is no number give nothing,
    its two data lines give their colours in file order.  In any file, a
    line that starts with [#] after leading whitespace is left out even
    when numbers follow, a line of whitespace is left out, a line with
    fewer than three digit-only tokens is left out, and the palette is
    what the lines give, one after the other in file order. *)
Theorem parse_gpl_file_tolerance :
  GUI.parse_gpl_file tolerance_text = Ok [(10, 20, 30); (40, 50, 60)]
  /\ Main.parse_gpl_file tolerance_text = Ok [(10, 20, 30); (40, 50, 60)]
  /\ map (GUI.gpl_line []) (lines_of tolerance_text)
     = [Ok []; Ok []; Ok []; Ok []; Ok [(10, 20, 30)]; Ok [];
        Ok [(40, 50, 60)]]
  /\ map digit_tokens (lines_of tolerance_text)
     = [[]; []; ["2"]; []; ["10"; "20"; "30"]; []; ["40"; "50"; "60"]]
  /\ GUI.parse_gpl_file comments_text = Ok [(1, 2, 3); (9, 10, 11)]
  /\ Main.parse_gpl_file comments_text = Ok [(1, 2, 3); (9, 10, 11)]
  /\ (forall ws rest colors,
        forallb isspace_char ws = true ->
        GUI.gpl_line colors (ws ++ String "#" rest) = Ok colors
        /\ Main.gpl_line colors (ws ++ String "#" rest) = Ok colors)
  /\ (forall ws colors,
        forallb isspace_char ws = true ->
        GUI.gpl_line colors ws = Ok colors
        /\ Main.gpl_line colors ws = Ok colors)
  /\ (forall line colors,
        (List.length (digit_tokens line) < 3)%nat ->
        GUI.gpl_line colors line = Ok colors
        /\ Main.gpl_line colors line = Ok colors)
  /\ (forall text,
        GUI.parse_gpl_file text = Ok (flat_map line_colors (lines_of text))
        /\ Main.parse_gpl_file text
           = Ok (flat_map line_colors (lines_of text))).
Proof.
  split; [vm_compute; reflexivity|].
  split; [vm_compute; reflexivity|].
  split; [vm_compute; reflexivity|].
  split; [vm_compute; reflexivity|].
  split; [vm_compute; reflexivity|].
  split; [vm_compute; reflexivity|].
  split.
  { intros ws rest colors H. split; [|change (Main.gpl_line colors) with (GUI.gpl_line colors)];
      exact (gpl_line_comment ws rest colors H). }
  split.
  { intros ws colors H. split; [|change (Main.gpl_line colors) with (GUI.gpl_line colors)];
      exact (gpl_line_blank ws colors H). }
  split.
  { intros line colors H. split; [|change (Main.gpl_line colors) with (GUI.gpl_line colors)];
      exact (gpl_line_few_numbers line colors H). }
  intros text.
  change (Main.parse_gpl_file text) with (GUI.parse_gpl_file text).
  assert (H : GUI.parse_gpl_file text
              = Ok (flat_map line_colors (lines_of text)))
    by (unfold GUI.parse_gpl_file; now rewrite gpl_lines_flat_map).
  split; exact H.
Qed.

Lemma parse_gpl_file_tolerance_witness :
  GUI.gpl_line [(7, 7, 7)] ("  " ++ String "#" " 255 0 0 pure red")
  = Ok [(7, 7, 7)]
  /\ GUI.gpl_line [(7, 7, 7)] "40 50" = Ok [(7, 7, 7)].
Proof.
  destruct parse_gpl_file_tolerance
    as (_ & _ & _ & _ & _ & _ & Hcomment & _ & Hfew & _).
  split.
  - exact (proj1 (Hcomment "  " " 255 0 0 pure red" [(7, 7, 7)] eq_refl)).
  - apply (Hfew "40 50" [(7, 7, 7)]). vm_compute. lia.
Defined.

End ReaderTolerance.
